(** * The frontend auto-tester of cbias-tester, embedded in Rocq

    [src/frontend_tester.py] drives a compiler, a linker and an interpreter
    over a batch of test cases and writes one verdict per case to a log.
    The embedding below follows the Python class [FrontendAutoTester]
    method by method.

    - Paths, file contents and commands are [string]s: a character of a
      path or a command stands for the Python character with that code
      point (below 256), a character of a file for a byte.  A path stands
      for [str(Path(..))], i.e. it is taken already normalised by
      pathlib.
    - The file system is a finite map from paths to nodes (regular file
      with its bytes, or directory).
    - Python exceptions are an explicit outcome next to normal return; both
      carry the world reached, since side effects survive a raise.
    - External programs are not part of the repository: the compiler and
      the linker are one oracle transforming the file system, the
      interpreter is an oracle producing standard output and an exit
      status.  An oracle answering [None] means the executable could not
      be launched ([subprocess.run] raises [FileNotFoundError]).
    - Every [subprocess.run] and every entry into [gen_ir], [run_ir] and
      [match] is recorded in a trace, so that "is (not) invoked" can be
      stated. *)

From Stdlib Require Import Ascii String ZArith DecimalString.
From stdpp Require Import gmap strings list fin_maps.

Local Open Scope string_scope.

(** ** Characters and Python string helpers *)

Definition tab : string := String (ascii_of_nat 9) "".
Definition nl : string := String (ascii_of_nat 10) "".

(** Whitespace as [str.split()] sees it among the characters below 256:
    TAB, LF, VT, FF, CR, the separators 0x1c-0x1f, the space, NEL (0x85)
    and the no-break space (0xa0). *)
Definition is_space (c : ascii) : bool :=
  let n := nat_of_ascii c in
  (((9 <=? n) && (n <=? 13)) || ((28 <=? n) && (n <=? 32))
   || (n =? 133) || (n =? 160))%nat.

(** [s.split()]: maximal runs of non-whitespace characters. *)
Fixpoint split_from (cur s : string) : list string :=
  match s with
  | "" => if String.eqb cur "" then [] else [cur]
  | String c s' =>
      if is_space c
      then (if String.eqb cur "" then split_from "" s'
            else cur :: split_from "" s')
      else split_from (cur +:+ String c "") s'
  end.

Definition split (s : string) : list string := split_from "" s.

(** [s.ljust(width, ' ')] *)
Fixpoint spaces (n : nat) : string :=
  match n with
  | O => ""
  | S n' => String " " (spaces n')
  end.

Definition ljust (s : string) (width : nat) : string :=
  s +:+ spaces (width - String.length s).

(** [str(n)] for a Python int. *)
Definition str_of_int (z : Z) : string := NilZero.string_of_int (Z.to_int z).

(** [max(l)] for a list of ints; [None] stands for the [ValueError] on an
    empty sequence. *)
Definition py_max (l : list nat) : option nat :=
  match l with
  | [] => None
  | x :: l' => Some (foldr Nat.max x l')
  end.

(** ** Time stamps: [datetime.now().strftime("%m%d-%H%M%S")] *)

Record datetime := mk_datetime {
  year : nat; month : nat; day : nat;
  hour : nat; minute : nat; second : nat; microsecond : nat
}.

Definition valid_datetime (d : datetime) : Prop :=
  1 <= month d <= 12 /\ 1 <= day d <= 31 /\
  hour d < 24 /\ minute d < 60 /\ second d < 60 /\ microsecond d < 1000 * 1000.

Definition digit (n : nat) : ascii := ascii_of_nat (48 + n).

(** A two-digit, zero-padded field such as [%m] or [%S]. *)
Definition pad2 (n : nat) : string :=
  String (digit (n / 10)) (String (digit (n mod 10)) "").

Definition strftime_mdHMS (d : datetime) : string :=
  pad2 (month d) +:+ pad2 (day d) +:+ "-" +:+
  pad2 (hour d) +:+ pad2 (minute d) +:+ pad2 (second d).

(** ** Paths *)

Definition is_slash (c : ascii) : bool := Ascii.eqb c "/"%char.

Definition is_absolute (p : string) : bool :=
  match p with
  | String c _ => is_slash c
  | "" => false
  end.

(** pathlib's [a / b] on normalised operands, as the string [str(a / b)]. *)
Definition path_join (a b : string) : string :=
  if is_absolute b then b
  else if String.eqb a "." then b
  else if String.eqb a "/" then a +:+ b
  else a +:+ "/" +:+ b.

(** The proper ancestors of a path, shortest first: every non-empty prefix
    that ends just before a separator. *)
Fixpoint ancestors_from (pre s : string) : list string :=
  match s with
  | "" => []
  | String c s' =>
      (if is_slash c && negb (String.eqb pre "") then [pre] else [])
        ++ ancestors_from (pre +:+ String c "") s'
  end.

Definition ancestors (p : string) : list string := ancestors_from "" p.

(** The directory holding [p]; [None] when it is the working directory or
    the root, which always exist. *)
Definition parent (p : string) : option string := last (ancestors p).

(** ** The world: file system, trace of calls, console *)

Inductive node :=
  | File (content : string)
  | Dir.

Inductive exn :=
  | FileNotFoundError
  | FileExistsError
  | NotADirectoryError
  | IsADirectoryError
  | ValueError.

(** Modelled from the spec: the class [TestCase] of module [caseloader],
    which is imported but not part of the sources.  The spec lists a source
    path, an optional input path, an expected-output path and the derived
    artifact and capture names; the fields carry the names the tester
    reads. [sy_path] holds [str(tc.sy_path)]. *)
Record TestCase := mk_TestCase {
  sy_path : string;
  in_path : option string;
  std_out_path : string;
  ll_name : string;
  bc_name : string;
  gen_out_name : string
}.

(** How a [subprocess.run] call wires a standard stream. *)
Inductive stdin_src :=
  | StdinInherited              (* no [stdin=] argument *)
  | StdinFile (p : string).     (* [stdin=] an open file *)

Inductive out_dst :=
  | OutInherited                (* no argument *)
  | OutDevNull                  (* [subprocess.DEVNULL] *)
  | OutFile (p : string).       (* an open file *)

Inductive event :=
  | Spawn (argv : list string) (sin : stdin_src) (sout serr : out_dst)
  | Call_gen_ir (tc : TestCase)
  | Call_run_ir (bc_path out_path : string) (inp : option string) (echo_ret : bool)
  | Call_match (file1 file2 : string).

Record world := mk_world {
  fs : gmap string node;
  trace : list event;
  console : string
}.

Definition set_fs (f : gmap string node) (w : world) : world :=
  {| fs := f; trace := trace w; console := console w |}.

Definition log_event (e : event) (w : world) : world :=
  {| fs := fs w; trace := trace w ++ [e]; console := console w |}.

Definition print (s : string) (w : world) : world :=
  {| fs := fs w; trace := trace w; console := console w +:+ s |}.

(** ** Computations that may raise *)

Inductive outcome (A : Type) :=
  | Ok (a : A) (w : world)
  | Raise (e : exn) (w : world).
Arguments Ok {A} a w.
Arguments Raise {A} e w.

Definition M (A : Type) : Type := world -> outcome A.

Definition ret {A} (a : A) : M A := fun w => Ok a w.
Definition raise {A} (e : exn) : M A := fun w => Raise e w.
Definition bind {A B} (m : M A) (k : A -> M B) : M B :=
  fun w => match m w with
           | Ok a w' => k a w'
           | Raise e w' => Raise e w'
           end.

Notation "x <- m ;; k" := (bind m (fun x => k))
  (at level 100, m at next level, right associativity).
Notation "m ;;; k" := (bind m (fun _ => k))
  (at level 100, right associativity).

Definition get_fs : M (gmap string node) := fun w => Ok (fs w) w.
Definition put_fs (f : gmap string node) : M unit := fun w => Ok tt (set_fs f w).
Definition emit (e : event) : M unit := fun w => Ok tt (log_event e w).

(** ** File-system primitives *)

(** [os.path.exists(p)] *)
Definition path_exists (p : string) : M bool :=
  f <- get_fs ;; ret (bool_decide (is_Some (f !! p))).

(** Why a path cannot be opened for writing, if at all: it is a directory,
    or the directory holding it is missing or is a regular file. *)
Definition write_error (f : gmap string node) (p : string) : option exn :=
  match f !! p with
  | Some Dir => Some IsADirectoryError
  | _ =>
      match parent p with
      | None => None
      | Some d =>
          match f !! d with
          | Some Dir => None
          | Some (File _) => Some NotADirectoryError
          | None => Some FileNotFoundError
          end
      end
  end.

(** [open(p, 'w+')]: create or truncate. *)
Definition open_truncate (p : string) : M unit :=
  f <- get_fs ;;
  match write_error f p with
  | Some e => raise e
  | None => put_fs (<[p := File ""]> f)
  end.

(** [open(p, 'a+')]: create if missing, keep the content otherwise. *)
Definition open_append (p : string) : M unit :=
  f <- get_fs ;;
  match write_error f p with
  | Some e => raise e
  | None =>
      match f !! p with
      | Some _ => ret tt
      | None => put_fs (<[p := File ""]> f)
      end
  end.

(** [open(p, 'r')] followed by reading everything. *)
Definition open_read (p : string) : M string :=
  f <- get_fs ;;
  match f !! p with
  | Some (File c) => ret c
  | Some Dir => raise IsADirectoryError
  | None => raise FileNotFoundError
  end.

(** Bytes written through a descriptor opened for append land at the end
    of the file. *)
Definition append_bytes (p : string) (bytes : string) (f : gmap string node)
  : gmap string node :=
  match f !! p with
  | Some (File c) => <[p := File (c +:+ bytes)]> f
  | _ => f
  end.

(** [os.path.getsize(p)] *)
Definition getsize (p : string) : M nat :=
  f <- get_fs ;;
  match f !! p with
  | Some (File c) => ret (String.length c)
  | Some Dir => ret 0
  | None => raise FileNotFoundError
  end.

(** [os.mkdir(p)] when [p] is absent and its parent is a directory. *)
Definition mkdir_missing (p : string) : M unit :=
  f <- get_fs ;;
  match f !! p with
  | None => put_fs (<[p := Dir]> f)
  | Some Dir => ret tt
  | Some (File _) => raise NotADirectoryError
  end.

Fixpoint mkdir_all (ps : list string) : M unit :=
  match ps with
  | [] => ret tt
  | p :: ps' => mkdir_missing p ;;; mkdir_all ps'
  end.

(** [os.makedirs(p)] with [exist_ok] left at [False]: missing ancestors are
    created, the leaf must not exist. *)
Definition makedirs (p : string) : M unit :=
  mkdir_all (ancestors p) ;;;
  f <- get_fs ;;
  match f !! p with
  | Some _ => raise FileExistsError
  | None => put_fs (<[p := Dir]> f)
  end.

(** [filecmp.cmp(f1, f2, shallow=False)]: both paths are stat'ed (a missing
    one raises); anything but two regular files of equal size and equal
    bytes compares unequal.  The module's result cache is left out. *)
Definition filecmp_cmp (f1 f2 : string) : M bool :=
  f <- get_fs ;;
  match f !! f1 with
  | None => raise FileNotFoundError
  | Some n1 =>
      match f !! f2 with
      | None => raise FileNotFoundError
      | Some n2 =>
          match n1, n2 with
          | File c1, File c2 =>
              if negb (String.length c1 =? String.length c2)%nat then ret false
              else ret (String.eqb c1 c2)
          | _, _ => ret false
          end
      end
  end.

(** ** The tester *)

(** The attributes [__init__] sets. *)
Record tester := mk_tester {
  java_path : string;
  compiler_path : string;
  testcases : list TestCase;
  root_dir : string;
  ir_dir : string;
  out_dir : string;
  res_path : string;
  max_path_width : nat
}.

Definition run_dir_name (now : datetime) : string :=
  "testgen-" +:+ strftime_mdHMS now.

(** [FrontendAutoTester.__init__]; [now] is what [datetime.now()] returns. *)
Definition init (compiler_path : string) (testcases : list TestCase)
    (java_path gen_dir : string) (now : datetime) : M tester :=
  let root_dir := path_join gen_dir (run_dir_name now) in
  let ir_dir := path_join root_dir "ir" in
  let out_dir := path_join root_dir "out" in
  let res_path := path_join root_dir "result.log" in
  match py_max (map (fun tc => String.length (sy_path tc)) testcases) with
  | None => raise ValueError
  | Some max_path_width =>
      makedirs root_dir ;;;
      makedirs ir_dir ;;;
      makedirs out_dir ;;;
      ret {| java_path := java_path; compiler_path := compiler_path;
             testcases := testcases; root_dir := root_dir;
             ir_dir := ir_dir; out_dir := out_dir; res_path := res_path;
             max_path_width := max_path_width |}
  end.

(** The three labels [run] assigns to [status]. *)
Definition Compilation_Error : string := "Compilation Error".
Definition Accecpted : string := "Accecpted".
Definition Wrong_Answer : string := "Wrong Answer".

(** The line [run] builds for one case (lines 80-83). *)
Definition log_line (t : tester) (tc : TestCase) (status : string) : string :=
  ljust (sy_path tc) (max_path_width t) +:+ (" " +:+ tab +:+ status +:+ nl).

(** [FrontendAutoTester.match] *)
Definition match_files (file1 file2 : string) : M bool :=
  emit (Call_match file1 file2) ;;;
  filecmp_cmp file1 file2.

(** The program [echo]: its arguments separated by spaces, then a newline. *)
Definition echo_output (args : list string) : string :=
  String.concat " " args +:+ nl.

(** [subprocess.run(argv, stdout=out_file)] for [argv[0] = "echo"]. *)
Definition run_echo (args : list string) (out_path : string) : M unit :=
  emit (Spawn ("echo" :: args) StdinInherited (OutFile out_path) OutInherited) ;;;
  f <- get_fs ;;
  put_fs (append_bytes out_path (echo_output args) f).

Section Tools.

(** The compiler and the linker: given the argument vector and the file
    system, the file system they leave, or [None] if not launched. *)
Variable tool : list string -> gmap string node -> option (gmap string node).

(** The interpreter: given the argument vector, the bytes on its standard
    input ([None] when the harness supplies none) and the file system,
    its standard output and exit status, or [None] if not launched. *)
Variable interp :
  list string -> option string -> gmap string node -> option (string * Z).

(** [subprocess.run(argv, stdout=DEVNULL, stderr=DEVNULL)] *)
Definition run_quiet (argv : list string) : M unit :=
  emit (Spawn argv StdinInherited OutDevNull OutDevNull) ;;;
  f <- get_fs ;;
  match tool argv f with
  | None => raise FileNotFoundError
  | Some f' => put_fs f'
  end.

(** [subprocess.run(argv, [stdin=in_file,] stdout=out_file,
    stderr=DEVNULL)], returning [p.returncode]. *)
Definition run_capture (argv : list string) (sin : stdin_src)
    (input : option string) (out_path : string) : M Z :=
  emit (Spawn argv sin (OutFile out_path) OutDevNull) ;;;
  f <- get_fs ;;
  match interp argv input f with
  | None => raise FileNotFoundError
  | Some (output, returncode) =>
      put_fs (append_bytes out_path output f) ;;;
      ret returncode
  end.

Definition cmd_compile (t : tester) (tc : TestCase) (ll_path : string) : string :=
  java_path t +:+ " -jar " +:+ compiler_path t +:+ " -s " +:+ sy_path tc
    +:+ " -emit-llvm " +:+ ll_path.

Definition cmd_link (ll_path bc_path : string) : string :=
  "llvm-link " +:+ ll_path +:+ " sylib.ll -o " +:+ bc_path.

Definition ll_path_of (t : tester) (tc : TestCase) : string :=
  ir_dir t +:+ "/" +:+ ll_name tc.

Definition bc_path_of (t : tester) (tc : TestCase) : string :=
  ir_dir t +:+ "/" +:+ bc_name tc.

(** [FrontendAutoTester.gen_ir] *)
Definition gen_ir (t : tester) (tc : TestCase) : M (option string) :=
  emit (Call_gen_ir tc) ;;;
  let ll_path := ll_path_of t tc in
  run_quiet (split (cmd_compile t tc ll_path)) ;;;
  ll_ok <- path_exists ll_path ;;
  if negb ll_ok then ret None
  else
    let bc_path := bc_path_of t tc in
    run_quiet (split (cmd_link ll_path bc_path)) ;;;
    bc_ok <- path_exists bc_path ;;
    if negb bc_ok then ret None
    else ret (Some bc_path).

(** [FrontendAutoTester.run_ir] *)
Definition run_ir (bc_path out_path : string) (in_path : option string)
    (echo_ret : bool) : M unit :=
  emit (Call_run_ir bc_path out_path in_path echo_ret) ;;;
  let cmd_lli := "lli " +:+ bc_path in
  open_append out_path ;;;
  returncode <-
    match in_path with
    | None => run_capture (split cmd_lli) StdinInherited None out_path
    | Some ip =>
        input <- open_read ip ;;
        run_capture (split cmd_lli) (StdinFile ip) (Some input) out_path
    end ;;
  if echo_ret then
    size <- getsize out_path ;;
    (if (0 <? size)%nat then run_echo [] out_path else ret tt) ;;;
    run_echo [str_of_int returncode] out_path
  else ret tt.

(** The part of the loop body of [run] that settles [status]
    (lines 70-78). *)
Definition case_status (t : tester) (echo_ret : bool) (tc : TestCase) : M string :=
  let out_path := path_join (out_dir t) (gen_out_name tc) in
  bc <- gen_ir t tc ;;
  match bc with
  | None => ret Compilation_Error
  | Some bc_path =>
      run_ir bc_path out_path (in_path tc) echo_ret ;;;
      same <- match_files out_path (std_out_path tc) ;;
      ret (if same then Accecpted else Wrong_Answer)
  end.

(** The text [log] the loop body builds for one case (lines 70-83). *)
Definition case_line (t : tester) (echo_ret : bool) (tc : TestCase) : M string :=
  status <- case_status t echo_ret tc ;;
  ret (log_line t tc status).

(** The loop of [run]; [buf] is what has been written to [res_file] so
    far.  It is returned on a raise too: leaving the [with] block closes
    the file, which flushes it. *)
Fixpoint run_loop (t : tester) (echo_ret terminal_log : bool)
    (tcs : list TestCase) (buf : string) (w : world) : outcome unit * string :=
  match tcs with
  | [] => (Ok tt w, buf)
  | tc :: rest =>
      match case_line t echo_ret tc w with
      | Raise e w' => (Raise e w', buf)
      | Ok log w' =>
          run_loop t echo_ret terminal_log rest (buf +:+ log)
            (if terminal_log then print log w' else w')
      end
  end.

(** Closing [res_file]: the buffered text becomes the file's content. *)
Definition close_log (t : tester) (buf : string) (w : world) : world :=
  set_fs (<[res_path t := File buf]> (fs w)) w.

(** [FrontendAutoTester.run] *)
Definition run (t : tester) (echo_ret terminal_log : bool) : M unit :=
  fun w =>
    match open_truncate (res_path t) w with
    | Raise e w' => Raise e w'
    | Ok _ w1 =>
        match run_loop t echo_ret terminal_log (testcases t) "" w1 with
        | (Ok _ w2, buf) => Ok tt (close_log t buf w2)
        | (Raise e w2, buf) => Raise e (close_log t buf w2)
        end
    end.

End Tools.

(** ** Vocabulary of the statements *)

(** The world an outcome leaves behind, whether it returned or raised. *)
Definition world_of {A} (o : outcome A) : world :=
  match o with
  | Ok _ w => w
  | Raise _ w => w
  end.

(** The two [subprocess.run] calls of [gen_ir], as trace events. *)
Definition compile_spawn (t : tester) (tc : TestCase) : event :=
  Spawn (split (cmd_compile t tc (ll_path_of t tc)))
    StdinInherited OutDevNull OutDevNull.

Definition link_spawn (t : tester) (tc : TestCase) : event :=
  Spawn (split (cmd_link (ll_path_of t tc) (bc_path_of t tc)))
    StdinInherited OutDevNull OutDevNull.

(** Entering the execute stage or the compare stage. *)
Definition is_execute_or_compare (e : event) : bool :=
  match e with
  | Call_run_ir _ _ _ _ | Call_match _ _ => true
  | _ => false
  end.

(** The file system once [open(out_path, 'a+')] has succeeded. *)
Definition touch (p : string) (f : gmap string node) : gmap string node :=
  match f !! p with
  | Some _ => f
  | None => <[p := File ""]> f
  end.

(** The bytes of a regular file; empty for anything else. *)
Definition content_at (f : gmap string node) (p : string) : string :=
  match f !! p with
  | Some (File c) => c
  | _ => ""
  end.

Definition lli_argv (bc_path : string) : list string :=
  split ("lli " +:+ bc_path).

Definition stdin_of (in_path : option string) : stdin_src :=
  match in_path with
  | None => StdinInherited
  | Some ip => StdinFile ip
  end.

(** What the interpreter finds on its standard input. *)
Definition reads_input (f : gmap string node) (in_path input : option string)
  : Prop :=
  match in_path with
  | None => input = None
  | Some ip => exists c, f !! ip = Some (File c) /\ input = Some c
  end.

(** What the echo step adds after [captured], the content of the capture
    file when the interpreter has finished. *)
Definition echo_text (echo_ret : bool) (captured : string) (code : Z) : string :=
  if echo_ret
  then (if (0 <? String.length captured)%nat then nl else "")
         +:+ str_of_int code +:+ nl
  else "".

Definition echo_spawn (args : list string) (out_path : string) : event :=
  Spawn ("echo" :: args) StdinInherited (OutFile out_path) OutInherited.

Definition echo_events (echo_ret : bool) (captured : string) (code : Z)
    (out_path : string) : list event :=
  if echo_ret
  then (if (0 <? String.length captured)%nat then [echo_spawn [] out_path] else [])
         ++ [echo_spawn [str_of_int code] out_path]
  else [].

(** [grows p f f']: if [p] is a regular file in [f], it still is in [f']
    and its old bytes are a prefix of the new ones. *)
Definition grows (p : string) (f f' : gmap string node) : Prop :=
  forall pre, f !! p = Some (File pre) ->
              exists suffix, f' !! p = Some (File (pre +:+ suffix)).

Definition append_only {A} (p : string) (m : M A) : Prop :=
  forall w, grows p (fs w) (fs (world_of (m w))).

Definition out_path_of (t : tester) (tc : TestCase) : string :=
  path_join (out_dir t) (gen_out_name tc).

(** Both paths are regular files holding the same bytes. *)
Definition same_bytes (f : gmap string node) (p q : string) : Prop :=
  exists bytes, f !! p = Some (File bytes) /\ f !! q = Some (File bytes).

Definition is_label (status : string) : Prop :=
  status = "Compilation Error" \/ status = "Accecpted" \/ status = "Wrong Answer".




(** The log line as the specification words it: the source path padded
    with spaces to the width, one tab, the label, a newline.  [a] spaces
    before and [b] after the path cover both readings of "padded". *)
Definition spec_log_line (a b : nat) (path status : string) : string :=
  spaces a +:+ path +:+ spaces b +:+ tab +:+ status +:+ nl.

(** [keeps R m]: whatever [m] does, returning or raising, the world it
    leaves is related by [R] to the one it started from. *)
Definition keeps {A} (R : world -> world -> Prop) (m : M A) : Prop :=
  forall w, R w (world_of (m w)).

(** Nothing was printed. *)
Definition same_console (w w' : world) : Prop := console w' = console w.

(** The path [q] is as it was: still absent, or the same node. *)
Definition same_at (q : string) (w w' : world) : Prop := fs w' !! q = fs w !! q.

(** A command-line word: not empty and free of whitespace, so that
    [str.split()] leaves it whole. *)
Fixpoint no_space (s : string) : bool :=
  match s with
  | "" => true
  | String c s' => negb (is_space c) && no_space s'
  end.

Definition is_word (s : string) : Prop := s <> "" /\ no_space s = true.

(** ** A concrete tool chain, used to run the model

    The compiler writes its target when the source exists and does not
    start with ['!']; the linker writes its target when its first input and
    the runtime library exist; the interpreter prints its input (or ["hi"]
    without input) and exits with the length of the linked file. *)
Module Demo.

Definition starts_with_bang (s : string) : bool :=
  match s with
  | String c _ => Ascii.eqb c "!"%char
  | "" => false
  end.

Definition tool (argv : list string) (f : gmap string node)
  : option (gmap string node) :=
  match argv with
  | [java; "-jar"; jar; "-s"; src; "-emit-llvm"; target] =>
      match f !! java, f !! src with
      | Some _, Some (File c) =>
          Some (if starts_with_bang c then f else <[target := File ("ir:" +:+ c)]> f)
      | Some _, _ => Some f
      | None, _ => None
      end
  | ["llvm-link"; ll; lib; "-o"; target] =>
      match f !! ll, f !! lib with
      | Some (File c), Some (File _) => Some (<[target := File ("bc:" +:+ c)]> f)
      | _, _ => Some f
      end
  | _ => None
  end.

Definition interp (argv : list string) (input : option string)
    (f : gmap string node) : option (string * Z) :=
  match argv with
  | ["lli"; bc] =>
      match f !! bc with
      | Some (File c) =>
          Some (default "hi" input, Z.of_nat (String.length c) - 10)%Z
      | _ => Some ("", 1%Z)
      end
  | _ => None
  end.

Definition tc_a : TestCase :=
  {| sy_path := "t/a.sy"; in_path := None; std_out_path := "t/a.out";
     ll_name := "a.ll"; bc_name := "a.bc"; gen_out_name := "a.out" |}.
Definition tc_b : TestCase :=
  {| sy_path := "t/bb.sy"; in_path := Some "t/bb.in"; std_out_path := "t/bb.out";
     ll_name := "bb.ll"; bc_name := "bb.bc"; gen_out_name := "bb.out" |}.
Definition tc_c : TestCase :=
  {| sy_path := "t/c.sy"; in_path := None; std_out_path := "t/c.out";
     ll_name := "c.ll"; bc_name := "c.bc"; gen_out_name := "c.out" |}.

Definition fs0 : gmap string node :=
  list_to_map
    [ ("java", File "jvm"); ("sylib.ll", File "lib"); ("t", Dir); ("out", Dir);
      ("t/a.sy", File "main"); ("t/a.out", File ("hi" +:+ nl +:+ "0" +:+ nl));
      ("t/bb.sy", File "!bad"); ("t/bb.in", File "in"); ("t/bb.out", File "x");
      ("t/c.sy", File "main.c"); ("t/c.out", File "nope") ].

Definition w0 : world := {| fs := fs0; trace := []; console := "" |}.

Definition now0 : datetime :=
  {| year := 2022; month := 7; day := 9; hour := 14; minute := 5;
     second := 33; microsecond := 120 |}.

(** The tester the constructor builds for the three cases, and the world
    it leaves. *)
Definition t0 : tester :=
  {| java_path := "java"; compiler_path := "Cbias.jar";
     testcases := [tc_a; tc_b; tc_c];
     root_dir := "out/testgen-0709-140533";
     ir_dir := "out/testgen-0709-140533/ir";
     out_dir := "out/testgen-0709-140533/out";
     res_path := "out/testgen-0709-140533/result.log";
     max_path_width := 7 |}.

Definition w1 : world :=
  world_of (init "Cbias.jar" [tc_a; tc_b; tc_c] "java" "out" now0 w0).

(** The world once case [tc_a] is compiled and linked, and once it has
    been executed. *)
Definition w_linked : world := world_of (gen_ir tool t0 tc_a w1).

Definition w_ran : world :=
  world_of (run_ir interp (bc_path_of t0 tc_a) (out_path_of t0 tc_a)
              (in_path tc_a) true w_linked).

(** A world where the runtime library is missing, so that linking fails. *)
Definition w_nolib : world := set_fs (delete "sylib.ll" (fs w1)) w1.

(** A second construction time within the same second as [now0]. *)
Definition now0' : datetime :=
  {| year := 2022; month := 7; day := 9; hour := 14; minute := 5;
     second := 33; microsecond := 480 |}.

(** A case whose source path holds a blank. *)
Definition tc_blank : TestCase :=
  {| sy_path := "my tests/d.sy"; in_path := None; std_out_path := "t/d.out";
     ll_name := "d.ll"; bc_name := "d.bc"; gen_out_name := "d.out" |}.

(** A world where the Java launcher is missing. *)
Definition w_nojava : world := set_fs (delete "java" (fs w1)) w1.

End Demo.

(** * Properties *)

(** ** Strings *)

Lemma str_app_nil_l (s : string) : "" +:+ s = s.
Proof. reflexivity. Qed.

Lemma str_app_cons (c : ascii) (s t : string) :
  String c s +:+ t = String c (s +:+ t).
Proof. reflexivity. Qed.

Lemma str_app_nil_r (s : string) : s +:+ "" = s.
Proof.
  induction s as [|c s IH]; [done |]. by rewrite str_app_cons, IH.
Qed.

Lemma str_app_assoc (a b c : string) : (a +:+ b) +:+ c = a +:+ (b +:+ c).
Proof.
  induction a as [|x a IH]; [done |]. by rewrite !str_app_cons, IH.
Qed.

Lemma str_length_app (a b : string) :
  String.length (a +:+ b) = String.length a + String.length b.
Proof.
  induction a as [|x a IH]; [done |]. rewrite str_app_cons. simpl. by rewrite IH.
Qed.

(** ** Time stamps *)

Lemma digit_inj (a b : nat) : a < 10 -> b < 10 -> digit a = digit b -> a = b.
Proof.
  intros Ha Hb H. unfold digit in H.
  apply (f_equal nat_of_ascii) in H.
  rewrite !nat_ascii_embedding in H by lia. lia.
Qed.

Lemma pad2_inj (a b : nat) : a < 100 -> b < 100 -> pad2 a = pad2 b -> a = b.
Proof.
  intros Ha Hb H. unfold pad2 in H.
  assert (Hqa : a / 10 < 10) by (apply Nat.Div0.div_lt_upper_bound; lia).
  assert (Hqb : b / 10 < 10) by (apply Nat.Div0.div_lt_upper_bound; lia).
  assert (Hra : a mod 10 < 10) by (apply Nat.mod_upper_bound; lia).
  assert (Hrb : b mod 10 < 10) by (apply Nat.mod_upper_bound; lia).
  pose proof (Nat.div_mod_eq a 10) as Ea. pose proof (Nat.div_mod_eq b 10) as Eb.
  revert H Hqa Hqb Hra Hrb Ea Eb.
  generalize (a / 10) (b / 10) (a mod 10) (b mod 10).
  intros qa qb ra rb H Hqa Hqb Hra Hrb Ea Eb.
  injection H as H1 H0.
  apply digit_inj in H1; [| done | done].
  apply digit_inj in H0; [| done | done]. lia.
Qed.

Lemma pad2_app_inj (a b : nat) (r r' : string) :
  pad2 a +:+ r = pad2 b +:+ r' -> pad2 a = pad2 b /\ r = r'.
Proof.
  unfold pad2.
  generalize (digit (a / 10)) (digit (a mod 10)) (digit (b / 10)) (digit (b mod 10)).
  intros x1 x0 y1 y0. rewrite !str_app_cons, !str_app_nil_l.
  intros H. injection H as -> -> ->. done.
Qed.

Lemma strftime_fields (d1 d2 : datetime) :
  strftime_mdHMS d1 = strftime_mdHMS d2 <->
  pad2 (month d1) = pad2 (month d2) /\ pad2 (day d1) = pad2 (day d2) /\
  pad2 (hour d1) = pad2 (hour d2) /\ pad2 (minute d1) = pad2 (minute d2) /\
  pad2 (second d1) = pad2 (second d2).
Proof.
  unfold strftime_mdHMS. split.
  - intros H.
    apply pad2_app_inj in H as [Hm H]. apply pad2_app_inj in H as [Hd H].
    apply (inj (String.append "-")) in H.
    apply pad2_app_inj in H as [HH H]. apply pad2_app_inj in H as [HM H].
    done.
  - intros (-> & -> & -> & -> & ->). done.
Qed.

(** ** The compile and link stages *)

Ltac run_monad :=
  unfold bind, ret, raise, emit, get_fs, put_fs; simpl.

Ltac world_eq :=
  unfold set_fs, log_event, print; simpl;
  rewrite <- ?(assoc_L (++)); simpl; try reflexivity.

Section Stages.

Variable tool : list string -> gmap string node -> option (gmap string node).
Variable interp :
  list string -> option string -> gmap string node -> option (string * Z).

Lemma gen_ir_compile_failed (t : tester) (tc : TestCase) (w : world)
    (f1 : gmap string node) :
  tool (split (cmd_compile t tc (ll_path_of t tc))) (fs w) = Some f1 ->
  f1 !! ll_path_of t tc = None ->
  gen_ir tool t tc w =
    Ok None {| fs := f1;
               trace := trace w ++ [Call_gen_ir tc; compile_spawn t tc];
               console := console w |}.
Proof.
  intros Htool Hll. unfold gen_ir, run_quiet, path_exists. run_monad.
  rewrite Htool. simpl. rewrite Hll.
  rewrite bool_decide_eq_false_2 by (intros [? ?]; done). simpl.
  world_eq.
Qed.

Lemma gen_ir_link_failed (t : tester) (tc : TestCase) (w : world)
    (f1 f2 : gmap string node) :
  tool (split (cmd_compile t tc (ll_path_of t tc))) (fs w) = Some f1 ->
  is_Some (f1 !! ll_path_of t tc) ->
  tool (split (cmd_link (ll_path_of t tc) (bc_path_of t tc))) f1 = Some f2 ->
  f2 !! bc_path_of t tc = None ->
  gen_ir tool t tc w =
    Ok None {| fs := f2;
               trace := trace w ++ [Call_gen_ir tc; compile_spawn t tc; link_spawn t tc];
               console := console w |}.
Proof.
  intros Htool Hll Hlink Hbc. unfold gen_ir, run_quiet, path_exists. run_monad.
  rewrite Htool. simpl. rewrite bool_decide_eq_true_2 by done. simpl.
  rewrite Hlink. simpl. rewrite Hbc.
  rewrite bool_decide_eq_false_2 by (intros [? ?]; done). simpl.
  world_eq.
Qed.

Lemma gen_ir_linked (t : tester) (tc : TestCase) (w : world)
    (f1 f2 : gmap string node) :
  tool (split (cmd_compile t tc (ll_path_of t tc))) (fs w) = Some f1 ->
  is_Some (f1 !! ll_path_of t tc) ->
  tool (split (cmd_link (ll_path_of t tc) (bc_path_of t tc))) f1 = Some f2 ->
  is_Some (f2 !! bc_path_of t tc) ->
  gen_ir tool t tc w =
    Ok (Some (bc_path_of t tc))
       {| fs := f2;
          trace := trace w ++ [Call_gen_ir tc; compile_spawn t tc; link_spawn t tc];
          console := console w |}.
Proof.
  intros Htool Hll Hlink Hbc. unfold gen_ir, run_quiet, path_exists. run_monad.
  rewrite Htool. simpl. rewrite bool_decide_eq_true_2 by done. simpl.
  rewrite Hlink. simpl. rewrite bool_decide_eq_true_2 by done. simpl.
  world_eq.
Qed.

(** Whatever [gen_ir] returns is the linked path, and that path exists. *)
Lemma gen_ir_some (t : tester) (tc : TestCase) (w w' : world) (bc : string) :
  gen_ir tool t tc w = Ok (Some bc) w' ->
  bc = bc_path_of t tc /\ is_Some (fs w' !! bc).
Proof.
  unfold gen_ir, run_quiet, path_exists. run_monad.
  destruct (tool _ (fs w)) as [f1|]; simpl; [| done].
  case_bool_decide; simpl; [| done].
  destruct (tool _ f1) as [f2|]; simpl; [| done].
  case_bool_decide; simpl; [| done].
  intros Heq. injection Heq as <- <-. unfold set_fs. simpl. done.
Qed.

(** ** The execute stage *)

Lemma bind_ok {A B} (m : M A) (k : A -> M B) (w w' : world) (a : A) :
  m w = Ok a w' -> bind m k w = k a w'.
Proof. intros H. unfold bind. by rewrite H. Qed.

Lemma set_fs_same (w : world) : set_fs (fs w) w = w.
Proof. by destruct w. Qed.

Lemma write_error_not_dir (f : gmap string node) (p : string) :
  write_error f p = None -> f !! p <> Some Dir.
Proof. unfold write_error. intros H Hd. by rewrite Hd in H. Qed.

Lemma touch_insert (f : gmap string node) (p : string) :
  f !! p <> Some Dir -> touch p f = <[p := File (content_at f p)]> f.
Proof.
  intros Hd. unfold touch, content_at.
  destruct (f !! p) as [[c|]|] eqn:E; [| done | done].
  by rewrite insert_id.
Qed.

Lemma append_bytes_insert (p c b : string) (f : gmap string node) :
  append_bytes p b (<[p := File c]> f) = <[p := File (c +:+ b)]> f.
Proof.
  unfold append_bytes. rewrite lookup_insert_eq. by rewrite insert_insert_eq.
Qed.

Lemma open_append_ok (p : string) (w : world) :
  write_error (fs w) p = None ->
  open_append p w = Ok tt (set_fs (touch p (fs w)) w).
Proof.
  intros H. unfold open_append, touch. run_monad. rewrite H.
  destruct (fs w !! p); [| done]. unfold ret. by rewrite set_fs_same.
Qed.

Lemma open_read_ok (p c : string) (w : world) :
  fs w !! p = Some (File c) -> open_read p w = Ok c w.
Proof. intros H. unfold open_read. run_monad. by rewrite H. Qed.

Lemma getsize_ok (p c : string) (w : world) :
  fs w !! p = Some (File c) -> getsize p w = Ok (String.length c) w.
Proof. intros H. unfold getsize. run_monad. by rewrite H. Qed.

Lemma run_capture_ok (argv : list string) (sin : stdin_src)
    (input : option string) (out_path output : string) (code : Z) (w : world) :
  interp argv input (fs w) = Some (output, code) ->
  run_capture interp argv sin input out_path w =
    Ok code (set_fs (append_bytes out_path output (fs w))
               (log_event (Spawn argv sin (OutFile out_path) OutDevNull) w)).
Proof. intros H. unfold run_capture. run_monad. by rewrite H. Qed.

Lemma run_echo_ok (args : list string) (out_path : string) (w : world) :
  run_echo args out_path w =
    Ok tt (set_fs (append_bytes out_path (echo_output args) (fs w))
             (log_event (echo_spawn args out_path) w)).
Proof. reflexivity. Qed.

(** The execute stage, when the capture file can be opened, the input (if
    any) can be read and the interpreter is launched. *)
Lemma run_ir_ok (bc_path out_path : string) (inp input : option string)
    (echo_ret : bool) (w : world) (output : string) (code : Z) :
  write_error (fs w) out_path = None ->
  reads_input (touch out_path (fs w)) inp input ->
  interp (lli_argv bc_path) input (touch out_path (fs w)) = Some (output, code) ->
  run_ir interp bc_path out_path inp echo_ret w =
    Ok tt
      {| fs := <[out_path :=
                   File ((content_at (fs w) out_path +:+ output)
                         +:+ echo_text echo_ret
                               (content_at (fs w) out_path +:+ output) code)]>
                 (fs w);
         trace := trace w ++
           Call_run_ir bc_path out_path inp echo_ret
           :: Spawn (lli_argv bc_path) (stdin_of inp) (OutFile out_path) OutDevNull
           :: echo_events echo_ret (content_at (fs w) out_path +:+ output)
                code out_path;
         console := console w |}.
Proof.
  intros Hw Hin Hrun.
  pose proof (touch_insert _ _ (write_error_not_dir _ _ Hw)) as Ht.
  set (pre := content_at (fs w) out_path) in *.
  unfold run_ir.
  rewrite (bind_ok _ _ w (log_event (Call_run_ir bc_path out_path inp echo_ret) w) tt)
    by reflexivity.
  erewrite bind_ok; last by (apply open_append_ok; simpl; exact Hw).
  simpl fs.
  assert (Hcap :
    (match inp with
     | None => run_capture interp (split ("lli " +:+ bc_path)) StdinInherited None out_path
     | Some ip =>
         input0 <- open_read ip ;;
         run_capture interp (split ("lli " +:+ bc_path)) (StdinFile ip) (Some input0) out_path
     end)
      (set_fs (touch out_path (fs w))
         (log_event (Call_run_ir bc_path out_path inp echo_ret) w))
    = Ok code
        (set_fs (<[out_path := File (pre +:+ output)]> (fs w))
           (log_event (Spawn (lli_argv bc_path) (stdin_of inp) (OutFile out_path) OutDevNull)
              (log_event (Call_run_ir bc_path out_path inp echo_ret) w)))).
  { destruct inp as [ip|]; simpl in Hin.
    - destruct Hin as (c & Hc & ->).
      erewrite bind_ok; last by (apply open_read_ok; simpl; exact Hc).
      erewrite run_capture_ok; last by (simpl; exact Hrun).
      simpl. by rewrite Ht, append_bytes_insert.
    - subst input.
      erewrite run_capture_ok; last by (simpl; exact Hrun).
      simpl. by rewrite Ht, append_bytes_insert. }
  erewrite bind_ok; last exact Hcap.
  destruct echo_ret; simpl echo_text; simpl echo_events.
  - erewrite bind_ok; last by (apply getsize_ok; simpl; apply lookup_insert_eq).
    destruct (0 <? String.length (pre +:+ output))%nat.
    + erewrite bind_ok; last by apply run_echo_ok.
      rewrite run_echo_ok. simpl.
      rewrite !append_bytes_insert. f_equal. world_eq.
      by rewrite !str_app_assoc.
    + erewrite bind_ok; last by reflexivity.
      rewrite run_echo_ok. simpl.
      rewrite !append_bytes_insert. f_equal. world_eq.
  - unfold ret. f_equal. world_eq. by rewrite str_app_nil_r.
Qed.

(** *** The capture file only ever grows *)

Lemma grows_refl (p : string) (f : gmap string node) : grows p f f.
Proof. intros pre H. exists "". by rewrite str_app_nil_r. Qed.

Lemma grows_trans (p : string) (f1 f2 f3 : gmap string node) :
  grows p f1 f2 -> grows p f2 f3 -> grows p f1 f3.
Proof.
  intros H12 H23 pre H. destruct (H12 _ H) as [s1 H2].
  destruct (H23 _ H2) as [s2 H3]. exists (s1 +:+ s2).
  by rewrite <- str_app_assoc.
Qed.

Lemma grows_append_bytes (p q b : string) (f : gmap string node) :
  grows p f (append_bytes q b f).
Proof.
  intros pre H. unfold append_bytes.
  destruct (f !! q) as [[c|]|] eqn:E; try (apply grows_refl; done).
  destruct (decide (q = p)) as [->|Hne].
  - rewrite lookup_insert_eq. exists b. congruence.
  - rewrite lookup_insert_ne by done. apply grows_refl; done.
Qed.

Lemma append_only_bind {A B} (p : string) (m : M A) (k : A -> M B) :
  append_only p m -> (forall a, append_only p (k a)) -> append_only p (bind m k).
Proof.
  intros Hm Hk w. unfold bind. specialize (Hm w).
  destruct (m w) as [a w'|e w']; simpl in Hm; [| done].
  eapply grows_trans; [exact Hm | apply Hk].
Qed.

Lemma append_only_ret {A} (p : string) (a : A) : append_only p (ret a).
Proof. intros w. apply grows_refl. Qed.

Lemma append_only_emit (p : string) (e : event) : append_only p (emit e).
Proof. intros w. apply grows_refl. Qed.

Lemma append_only_open_append (p q : string) : append_only p (open_append q).
Proof.
  intros w. unfold open_append. run_monad.
  destruct (write_error (fs w) q); simpl; [apply grows_refl |].
  destruct (fs w !! q) eqn:E; simpl; [apply grows_refl |].
  intros pre H. destruct (decide (q = p)) as [->|Hne]; [congruence |].
  rewrite lookup_insert_ne by done. by apply grows_refl.
Qed.

Lemma append_only_open_read (p q : string) : append_only p (open_read q).
Proof.
  intros w. unfold open_read. run_monad.
  destruct (fs w !! q) as [[c|]|]; simpl; apply grows_refl.
Qed.

Lemma append_only_getsize (p q : string) : append_only p (getsize q).
Proof.
  intros w. unfold getsize. run_monad.
  destruct (fs w !! q) as [[c|]|]; simpl; apply grows_refl.
Qed.

Lemma append_only_run_capture (p : string) (argv : list string)
    (sin : stdin_src) (input : option string) (q : string) :
  append_only p (run_capture interp argv sin input q).
Proof.
  intros w. unfold run_capture. run_monad.
  destruct (interp argv input (fs w)) as [[o c]|]; simpl;
    [apply grows_append_bytes | apply grows_refl].
Qed.

Lemma append_only_run_echo (p : string) (args : list string) (q : string) :
  append_only p (run_echo args q).
Proof. intros w. rewrite run_echo_ok. simpl. apply grows_append_bytes. Qed.

Lemma append_only_run_ir (p bc_path out_path : string) (inp : option string)
    (echo_ret : bool) :
  append_only p (run_ir interp bc_path out_path inp echo_ret).
Proof.
  unfold run_ir.
  apply append_only_bind; [apply append_only_emit | intros _].
  apply append_only_bind; [apply append_only_open_append | intros _].
  apply append_only_bind.
  { destruct inp as [ip|]; [| apply append_only_run_capture].
    apply append_only_bind; [apply append_only_open_read | intros c].
    apply append_only_run_capture. }
  intros code. destruct echo_ret; [| apply append_only_ret].
  apply append_only_bind; [apply append_only_getsize | intros size].
  apply append_only_bind; [| intros _; apply append_only_run_echo].
  destruct (0 <? size)%nat; [apply append_only_run_echo | apply append_only_ret].
Qed.

(** Once reached and returned from, the stage leaves a capture file. *)
Lemma run_ir_leaves_capture (bc_path out_path : string) (inp : option string)
    (echo_ret : bool) (w w' : world) :
  run_ir interp bc_path out_path inp echo_ret w = Ok tt w' ->
  exists c, fs w' !! out_path = Some (File c).
Proof.
  unfold run_ir.
  rewrite (bind_ok _ _ w (log_event (Call_run_ir bc_path out_path inp echo_ret) w) tt)
    by reflexivity.
  set (w0 := log_event _ w).
  unfold bind at 1.
  destruct (open_append out_path w0) as [[] w1|e w1] eqn:Eopen; [| done].
  assert (exists c0, fs w1 !! out_path = Some (File c0)) as [c0 Hc0].
  { revert Eopen. unfold open_append. run_monad.
    pose proof (write_error_not_dir (fs w) out_path) as Hnd.
    destruct (write_error (fs w) out_path); simpl; [done |].
    destruct (fs w !! out_path) as [[c|]|] eqn:E; simpl.
    - intros Heq. injection Heq as <-. eauto.
    - by destruct Hnd.
    - intros Heq. injection Heq as <-. simpl. rewrite lookup_insert_eq. eauto. }
  intros Hrest.
  match type of Hrest with ?m w1 = _ =>
    assert (Hg : grows out_path (fs w1) (fs (world_of (m w1)))) end.
  { apply (append_only_bind out_path).
    - destruct inp as [ip|]; [| apply append_only_run_capture].
      apply append_only_bind; [apply append_only_open_read | intros c].
      apply append_only_run_capture.
    - intros code. destruct echo_ret; [| apply append_only_ret].
      apply append_only_bind; [apply append_only_getsize | intros size].
      apply append_only_bind; [| intros _; apply append_only_run_echo].
      destruct (0 <? size)%nat; [apply append_only_run_echo | apply append_only_ret]. }
  rewrite Hrest in Hg. simpl in Hg.
  destruct (Hg _ Hc0) as [suffix Hs]. eauto.
Qed.

Lemma case_line_compilation_error (t : tester) (echo_ret : bool)
    (tc : TestCase) (w w1 : world) :
  gen_ir tool t tc w = Ok None w1 ->
  case_status tool interp t echo_ret tc w = Ok Compilation_Error w1 /\
  case_line tool interp t echo_ret tc w =
    Ok (log_line t tc Compilation_Error) w1.
Proof.
  intros H. unfold case_line, case_status, bind. rewrite H. done.
Qed.

(** ** The compare stage and the verdict *)

Lemma filecmp_cmp_files (p q c : string) (n : node) (w : world) :
  fs w !! p = Some (File c) -> fs w !! q = Some n ->
  exists same, filecmp_cmp p q w = Ok same w /\
               (same = true <-> same_bytes (fs w) p q).
Proof.
  intros Hp Hq. unfold filecmp_cmp. run_monad. rewrite Hp, Hq.
  unfold same_bytes. destruct n as [c2|].
  - destruct (String.length c =? String.length c2)%nat eqn:El; simpl.
    + exists (String.eqb c c2). split; [done |].
      rewrite String.eqb_eq. split.
      * intros ->. eauto.
      * intros (b & Hb1 & Hb2). congruence.
    + exists false. split; [done |]. split; [done |].
      intros (b & Hb1 & Hb2). apply Nat.eqb_neq in El. congruence.
  - exists false. split; [done |]. split; [done |].
    intros (b & Hb1 & Hb2). congruence.
Qed.

Lemma case_status_label (t : tester) (echo_ret : bool) (tc : TestCase)
    (w w' : world) (status : string) :
  case_status tool interp t echo_ret tc w = Ok status w' -> is_label status.
Proof.
  unfold case_status, bind, is_label, ret.
  destruct (gen_ir tool t tc w) as [[bc|] w1|]; [| | done].
  - destruct (run_ir _ _ _ _ _ _) as [? w2|]; [| done].
    destruct (match_files _ _ _) as [[] w3|]; [| | done];
      intros H; injection H as <- _; auto.
  - intros H; injection H as <- _; auto.
Qed.

(** ** The report *)








(** ** The constructor *)

Lemma py_max_bounds (l : list nat) (m : nat) :
  py_max l = Some m -> (forall x, x ∈ l -> x <= m) /\ m ∈ l.
Proof.
  destruct l as [|x l]; simpl; [done |]. intros H. injection H as <-.
  induction l as [|y l [IH1 IH2]]; simpl.
  - split; [| by left]. intros z Hz. apply list_elem_of_singleton in Hz. lia.
  - split.
    + intros z Hz. rewrite !elem_of_cons in Hz.
      destruct Hz as [->|[->|Hz]].
      * assert (x <= foldr Nat.max x l) by (apply IH1; by left). lia.
      * lia.
      * assert (z <= foldr Nat.max x l) by (apply IH1; by right). lia.
    + rewrite !elem_of_cons. rewrite elem_of_cons in IH2.
      destruct (Nat.max_spec y (foldr Nat.max x l)) as [[_ ->]|[_ ->]]; tauto.
Qed.

Lemma init_ok_fields (cp : string) (tcs : list TestCase) (jp gd : string)
    (now : datetime) (w0 w1 : world) (t : tester) :
  init cp tcs jp gd now w0 = Ok t w1 ->
  testcases t = tcs /\
  py_max (map (fun tc => String.length (sy_path tc)) tcs) = Some (max_path_width t) /\
  root_dir t = path_join gd (run_dir_name now) /\
  res_path t = path_join (root_dir t) "result.log".
Proof.
  unfold init. destruct (py_max _) as [m|]; [| done]. unfold bind.
  destruct (makedirs _ w0) as [? wa|]; [| done].
  destruct (makedirs _ wa) as [? wb|]; [| done].
  destruct (makedirs _ wb) as [? wc|]; [| done].
  unfold ret. intros H. injection H as <- _. done.
Qed.

End Stages.

(** * The claims of the specification *)

Section Claims.

Variable tool : list string -> gmap string node -> option (gmap string node).
Variable interp :
  list string -> option string -> gmap string node -> option (string * Z).

(** C1.  When the compiler has run and the intermediate-representation
    file [ll_path] is not on disk, [gen_ir] returns [None], the status of
    the case is ["Compilation Error"] (and so is its log line), and the
    case adds to the trace only the entry into [gen_ir] and the compiler
    call: neither [run_ir] nor [match] is entered. *)
Theorem compile_failure_is_compilation_error (t : tester) (echo_ret : bool)
    (tc : TestCase) (w : world) (f1 : gmap string node) :
  tool (split (cmd_compile t tc (ll_path_of t tc))) (fs w) = Some f1 ->
  f1 !! ll_path_of t tc = None ->
  exists w1,
    gen_ir tool t tc w = Ok None w1 /\
    case_status tool interp t echo_ret tc w = Ok "Compilation Error" w1 /\
    case_line tool interp t echo_ret tc w
      = Ok (log_line t tc "Compilation Error") w1 /\
    trace w1 = (trace w ++ [Call_gen_ir tc; compile_spawn t tc])%list /\
    (forall e, e ∈ trace w1 -> is_execute_or_compare e = true -> e ∈ trace w).
Proof.
  intros Htool Hll.
  pose proof (gen_ir_compile_failed tool t tc w f1 Htool Hll) as Hgen.
  eexists. split; [exact Hgen |].
  destruct (case_line_compilation_error tool interp t echo_ret tc w _ Hgen)
    as [Hs Hl].
  split; [exact Hs |]. split; [exact Hl |]. split; [reflexivity |].
  simpl. intros e He Hec. rewrite elem_of_app in He.
  destruct He as [He|He]; [done |].
  rewrite !elem_of_cons in He. destruct He as [->|[->|He]]; [done | done |].
  by apply elem_of_nil in He.
Qed.

(** C4.  When the compiler has produced [ll_path], the linker has run and
    the linked file [bc_path] is not on disk, [gen_ir] returns [None] and
    the status of the case is ["Compilation Error"], the same label as
    for a compile failure; [run_ir] and [match] are not entered. *)
Theorem link_failure_is_compilation_error (t : tester) (echo_ret : bool)
    (tc : TestCase) (w : world) (f1 f2 : gmap string node) :
  tool (split (cmd_compile t tc (ll_path_of t tc))) (fs w) = Some f1 ->
  is_Some (f1 !! ll_path_of t tc) ->
  tool (split (cmd_link (ll_path_of t tc) (bc_path_of t tc))) f1 = Some f2 ->
  f2 !! bc_path_of t tc = None ->
  exists w2,
    gen_ir tool t tc w = Ok None w2 /\
    case_status tool interp t echo_ret tc w = Ok "Compilation Error" w2 /\
    case_line tool interp t echo_ret tc w
      = Ok (log_line t tc "Compilation Error") w2 /\
    trace w2 = (trace w ++ [Call_gen_ir tc; compile_spawn t tc; link_spawn t tc])%list.
Proof.
  intros Htool Hll Hlink Hbc.
  pose proof (gen_ir_link_failed tool t tc w f1 f2 Htool Hll Hlink Hbc) as Hgen.
  eexists. split; [exact Hgen |].
  destruct (case_line_compilation_error tool interp t echo_ret tc w _ Hgen)
    as [Hs Hl].
  split; [exact Hs |]. split; [exact Hl |]. reflexivity.
Qed.

(** C3.  For a case that reaches the compare stage ([gen_ir] returned a
    path and [run_ir] returned) and whose expected-answer path exists,
    the status is ["Accecpted"] exactly when the capture file and the
    expected-answer file are regular files with the same bytes, and
    ["Wrong Answer"] exactly when they are not. *)
Theorem compare_stage_verdict (t : tester) (echo_ret : bool) (tc : TestCase)
    (w w1 w2 : world) (bc : string) :
  gen_ir tool t tc w = Ok (Some bc) w1 ->
  run_ir interp bc (out_path_of t tc) (in_path tc) echo_ret w1 = Ok tt w2 ->
  is_Some (fs w2 !! std_out_path tc) ->
  exists status,
    case_status tool interp t echo_ret tc w
      = Ok status (log_event (Call_match (out_path_of t tc) (std_out_path tc)) w2) /\
    (status = "Accecpted" <->
       same_bytes (fs w2) (out_path_of t tc) (std_out_path tc)) /\
    (status = "Wrong Answer" <->
       ~ same_bytes (fs w2) (out_path_of t tc) (std_out_path tc)).
Proof.
  intros Hgen Hrun [n Hstd].
  destruct (run_ir_leaves_capture interp _ _ _ _ _ _ Hrun) as [c Hc].
  set (w3 := log_event (Call_match (out_path_of t tc) (std_out_path tc)) w2).
  destruct (filecmp_cmp_files (out_path_of t tc) (std_out_path tc) c n w3)
    as (same & Hcmp & Hsame); [done | done |].
  exists (if same then Accecpted else Wrong_Answer). split.
  - unfold case_status. fold (out_path_of t tc).
    erewrite bind_ok; last exact Hgen. cbv beta iota.
    erewrite bind_ok; last exact Hrun.
    unfold match_files at 1.
    erewrite bind_ok; last first.
    { erewrite bind_ok; [exact Hcmp | reflexivity]. }
    done.
  - change (fs w3) with (fs w2) in Hsame.
    destruct same; unfold Accecpted, Wrong_Answer.
    + split; [tauto |]. split; [done |]. intros Hn. destruct Hn. tauto.
    + split; [split; [done |] |].
      * intros Hs. apply Hsame in Hs. done.
      * split; [| done]. intros _ Hs. apply Hsame in Hs. done.
Qed.

(** C2.  With exit-code echoing enabled, when the capture file can be
    opened, the input (if any) can be read and the interpreter is
    launched, [run_ir] returns and the capture file holds what was
    captured (its earlier content followed by the interpreter's output),
    then a newline if that is non-empty, then the decimal exit code and
    a newline.  For output ["hi"] and exit code 0 the file ends with
    ["hi\n0\n"]; for empty output, exit code 1 and a capture file that
    was empty or absent the file is exactly ["1\n"]. *)
Theorem run_ir_echoes_exit_code (bc_path out_path : string)
    (inp input : option string) (w : world) (output : string) (code : Z) :
  write_error (fs w) out_path = None ->
  reads_input (touch out_path (fs w)) inp input ->
  interp (lli_argv bc_path) input (touch out_path (fs w)) = Some (output, code) ->
  exists w',
    run_ir interp bc_path out_path inp true w = Ok tt w' /\
    fs w' !! out_path =
      Some (File ((content_at (fs w) out_path +:+ output)
                  +:+ (if String.eqb (content_at (fs w) out_path +:+ output) ""
                       then "" else nl)
                  +:+ str_of_int code +:+ nl)) /\
    (output = "hi" -> code = 0%Z ->
     fs w' !! out_path =
       Some (File (content_at (fs w) out_path +:+ "hi" +:+ nl +:+ "0" +:+ nl))) /\
    (output = "" -> code = 1%Z -> content_at (fs w) out_path = "" ->
     fs w' !! out_path = Some (File ("1" +:+ nl))).
Proof.
  intros Hw Hin Hrun.
  pose proof (run_ir_ok interp bc_path out_path inp input true w output code
                Hw Hin Hrun) as Hok.
  eexists. split; [exact Hok |]. simpl fs. rewrite lookup_insert_eq.
  set (pre := content_at (fs w) out_path). unfold echo_text.
  split; [| split].
  - destruct (pre +:+ output) as [|c s]; reflexivity.
  - intros -> ->.
    assert (Hpos : (0 <? String.length (pre +:+ "hi"))%nat = true).
    { apply Nat.ltb_lt. rewrite str_length_app. simpl. lia. }
    rewrite Hpos, str_app_assoc. reflexivity.
  - intros -> -> Hpre. rewrite Hpre. reflexivity.
Qed.

(** C8.  [run_ir] only appends to the capture file: bytes present before
    the stage are a prefix of the file's content afterwards, whether the
    stage returns or raises.  The non-empty check of the exit-code echo
    sees them too: with a non-empty capture file beforehand the newline
    separator is written whatever the interpreter prints. *)
Theorem run_ir_appends_to_capture (bc_path out_path : string)
    (inp : option string) (echo_ret : bool) (w : world) (pre : string) :
  fs w !! out_path = Some (File pre) ->
  (exists suffix,
     fs (world_of (run_ir interp bc_path out_path inp echo_ret w)) !! out_path
       = Some (File (pre +:+ suffix))) /\
  (forall input output code,
     write_error (fs w) out_path = None ->
     reads_input (fs w) inp input ->
     interp (lli_argv bc_path) input (fs w) = Some (output, code) ->
     pre <> "" ->
     exists w',
       run_ir interp bc_path out_path inp true w = Ok tt w' /\
       fs w' !! out_path =
         Some (File (pre +:+ output +:+ nl +:+ str_of_int code +:+ nl))).
Proof.
  intros Hpre. split.
  - by apply (append_only_run_ir interp out_path bc_path out_path inp echo_ret w).
  - intros input output code Hw Hin Hrun Hne.
    assert (Ht : touch out_path (fs w) = fs w) by (unfold touch; by rewrite Hpre).
    assert (Hc : content_at (fs w) out_path = pre)
      by (unfold content_at; by rewrite Hpre).
    rewrite <- Ht in Hin, Hrun.
    pose proof (run_ir_ok interp bc_path out_path inp input true w output code
                  Hw Hin Hrun) as Hok.
    eexists. split; [exact Hok |]. simpl fs. rewrite lookup_insert_eq, Hc.
    unfold echo_text. destruct pre as [|c s]; [done |].
    rewrite !str_app_cons. simpl. by rewrite !str_app_assoc.
Qed.

(** C9.  In [run_ir] the interpreter is started with the input file as
    its standard input when an input path is given and with no [stdin]
    argument when it is [None]; its standard output goes to the capture
    file and its standard error to [DEVNULL] in both cases.  The only
    other processes the stage starts are the [echo] calls. *)
Theorem run_ir_wires_stdin (bc_path out_path : string)
    (inp input : option string) (echo_ret : bool) (w : world)
    (output : string) (code : Z) :
  write_error (fs w) out_path = None ->
  reads_input (touch out_path (fs w)) inp input ->
  interp (lli_argv bc_path) input (touch out_path (fs w)) = Some (output, code) ->
  exists w' echoes,
    run_ir interp bc_path out_path inp echo_ret w = Ok tt w' /\
    trace w' =
      (trace w ++
       [Call_run_ir bc_path out_path inp echo_ret;
        Spawn (lli_argv bc_path)
          (match inp with
           | Some ip => StdinFile ip
           | None => StdinInherited
           end)
          (OutFile out_path) OutDevNull] ++ echoes)%list /\
    Forall (fun e => exists args, e = echo_spawn args out_path) echoes.
Proof.
  intros Hw Hin Hrun.
  pose proof (run_ir_ok interp bc_path out_path inp input echo_ret w output code
                Hw Hin Hrun) as Hok.
  eexists. eexists. split; [exact Hok |]. split.
  - simpl. unfold stdin_of. by destruct inp.
  - unfold echo_events. destruct echo_ret; [| constructor].
    destruct (0 <? _)%nat; simpl; repeat constructor; eauto.
Qed.


(** C5 (amended).  For a tester built by the constructor and a case of
    its batch, the text written for the case is the source path, then as
    many spaces as bring it to the batch's maximum source-path length
    (the path is left-justified, padded on the right), then one more
    space, one tab, the label and a newline; the label is one of
    ["Compilation Error"], ["Accecpted"] and ["Wrong Answer"]. *)
Theorem log_line_format (cp : string) (tcs : list TestCase) (jp gd : string)
    (now : datetime) (w0 w1 : world) (t : tester) (echo_ret : bool)
    (tc : TestCase) (w w' : world) (line : string) :
  init cp tcs jp gd now w0 = Ok t w1 ->
  tc ∈ tcs ->
  case_line tool interp t echo_ret tc w = Ok line w' ->
  exists k status,
    line = sy_path tc +:+ spaces k +:+ " " +:+ tab +:+ status +:+ nl /\
    String.length (sy_path tc) + k = max_path_width t /\
    (forall tc', tc' ∈ tcs -> String.length (sy_path tc') <= max_path_width t) /\
    (exists tc', tc' ∈ tcs /\ String.length (sy_path tc') = max_path_width t) /\
    (status = "Compilation Error" \/ status = "Accecpted" \/
     status = "Wrong Answer").
Proof.
  intros Hinit Htc Hline.
  destruct (init_ok_fields _ _ _ _ _ _ _ _ Hinit) as (_ & Hmax & _).
  destruct (py_max_bounds _ _ Hmax) as [Hle Hin].
  assert (Hall : forall tc', tc' ∈ tcs ->
                   String.length (sy_path tc') <= max_path_width t).
  { intros tc' H'. apply Hle. apply list_elem_of_fmap. eauto. }
  unfold case_line, bind in Hline.
  destruct (case_status tool interp t echo_ret tc w) as [status w2|] eqn:Es;
    [| done].
  unfold ret in Hline. injection Hline as <- <-.
  exists (max_path_width t - String.length (sy_path tc)), status.
  split; [| split; [| split; [| split]]].
  - unfold log_line, ljust. by rewrite !str_app_assoc.
  - specialize (Hall tc Htc). lia.
  - exact Hall.
  - apply list_elem_of_fmap in Hin as (tc' & E & H'). eauto.
  - by eapply case_status_label.
Qed.

End Claims.

(** What [os.makedirs] can raise. *)
Lemma mkdir_all_raises (ps : list string) (w w' : world) (e : exn) :
  mkdir_all ps w = Raise e w' -> e = NotADirectoryError.
Proof.
  revert w. induction ps as [|p ps IH]; intros w; simpl; [done |].
  unfold bind, mkdir_missing at 1. run_monad.
  destruct (fs w !! p) as [[c|]|]; simpl.
  - intros H. by injection H as <- _.
  - apply IH.
  - apply IH.
Qed.

Lemma makedirs_raises (p : string) (w w' : world) (e : exn) :
  makedirs p w = Raise e w' -> e = NotADirectoryError \/ e = FileExistsError.
Proof.
  unfold makedirs, bind.
  destruct (mkdir_all (ancestors p) w) as [[] w1|e1 w1] eqn:E.
  - run_monad. destruct (fs w1 !! p); simpl; [| done].
    intros H. injection H as <- _. by right.
  - intros H. injection H as <- _. left. by eapply mkdir_all_raises.
Qed.

(** C10.  With an empty list of test cases the constructor raises (the
    [ValueError] of [max] on an empty sequence) before any directory is
    made: the world, and with it the file system, is exactly as it was.
    Only the empty batch makes the constructor raise this error. *)
Theorem init_empty_batch_raises (cp jp gd : string) (now : datetime) (w : world) :
  init cp [] jp gd now w = Raise ValueError w /\
  fs (world_of (init cp [] jp gd now w)) = fs w /\
  (forall tcs w', init cp tcs jp gd now w = Raise ValueError w' -> tcs = []).
Proof.
  split; [reflexivity |]. split; [reflexivity |].
  intros tcs w' H. destruct tcs as [|tc tcs]; [done |]. exfalso.
  revert H. unfold init.
  change (py_max _)
    with (Some (foldr Nat.max (String.length (sy_path tc))
                  (map (fun tc0 => String.length (sy_path tc0)) tcs))).
  cbv beta iota zeta. unfold bind.
  destruct (makedirs _ w) as [[] wa|e wa] eqn:Ea.
  - destruct (makedirs _ wa) as [[] wb|e wb] eqn:Eb.
    + destruct (makedirs _ wb) as [[] wc|e wc] eqn:Ec; [done |].
      intros H. injection H as -> _.
      by destruct (makedirs_raises _ _ _ _ Ec).
    + intros H. injection H as -> _.
      by destruct (makedirs_raises _ _ _ _ Eb).
  - intros H. injection H as -> _.
    by destruct (makedirs_raises _ _ _ _ Ea).
Qed.

(** C7 (amended).  Two construction times give the same run-directory name
    exactly when they agree on month, day, hour, minute and second; times
    that differ in one of these give distinct names. *)
Theorem run_dir_name_same_iff_same_second (d1 d2 : datetime) :
  valid_datetime d1 -> valid_datetime d2 ->
  (run_dir_name d1 = run_dir_name d2 <->
   month d1 = month d2 /\ day d1 = day d2 /\ hour d1 = hour d2 /\
   minute d1 = minute d2 /\ second d1 = second d2).
Proof.
  intros (Hm1 & Hd1 & HH1 & HM1 & HS1 & _) (Hm2 & Hd2 & HH2 & HM2 & HS2 & _).
  unfold run_dir_name. split.
  - intros H. apply (inj (String.append "testgen-")) in H.
    apply strftime_fields in H as (Em & Ed & EH & EM & ES).
    repeat split; apply pad2_inj; (done || lia).
  - intros (Em & Ed & EH & EM & ES). unfold strftime_mdHMS.
    by rewrite Em, Ed, EH, EM, ES.
Qed.

(** * The model at work *)

Example init_demo :
  init "Cbias.jar" [Demo.tc_a; Demo.tc_b; Demo.tc_c] "java" "out"
    Demo.now0 Demo.w0 = Ok Demo.t0 Demo.w1.
Proof. vm_compute. reflexivity. Qed.

(** A whole batch: one case passes, one does not compile, one prints the
    wrong answer. *)
Example run_demo :
  exists w',
    run Demo.tool Demo.interp Demo.t0 true true Demo.w1 = Ok tt w' /\
    fs w' !! res_path Demo.t0 =
      Some (File ("t/a.sy  " +:+ tab +:+ "Accecpted" +:+ nl +:+
                  "t/bb.sy " +:+ tab +:+ "Compilation Error" +:+ nl +:+
                  "t/c.sy  " +:+ tab +:+ "Wrong Answer" +:+ nl)) /\
    console w' = content_at (fs w') (res_path Demo.t0).
Proof.
  eexists. split; [vm_compute; reflexivity |].
  split; vm_compute; reflexivity.
Qed.

(** [split] cuts at the no-break space and at NEL as it does at a
    blank. *)
Example split_at_no_break_space :
  split (String "a" (String (ascii_of_nat 160) (String "b"
          (String (ascii_of_nat 133) "c")))) = ["a"; "b"; "c"].
Proof. reflexivity. Qed.

(** A missing expected-answer file is not a verdict: [match] raises. *)
Example match_missing_answer_raises :
  exists w', match_files "t/a.out" "t/none.out" Demo.w1 = Raise FileNotFoundError w'.
Proof. eexists. vm_compute. reflexivity. Qed.


(** C1 at work: the source of [tc_b] does not compile. *)
Lemma compile_failure_witness :
  exists w',
    gen_ir Demo.tool Demo.t0 Demo.tc_b Demo.w1 = Ok None w' /\
    case_status Demo.tool Demo.interp Demo.t0 true Demo.tc_b Demo.w1
      = Ok "Compilation Error" w'.
Proof.
  destruct (compile_failure_is_compilation_error Demo.tool Demo.interp
              Demo.t0 true Demo.tc_b Demo.w1 (fs Demo.w1))
    as (w' & Hgen & Hstatus & _).
  - vm_compute. reflexivity.
  - vm_compute. reflexivity.
  - exists w'. split; [exact Hgen | exact Hstatus].
Defined.

(** C4 at work: without the runtime library the linker writes nothing. *)
Lemma link_failure_witness :
  exists w',
    gen_ir Demo.tool Demo.t0 Demo.tc_a Demo.w_nolib = Ok None w' /\
    case_status Demo.tool Demo.interp Demo.t0 true Demo.tc_a Demo.w_nolib
      = Ok "Compilation Error" w'.
Proof.
  destruct (link_failure_is_compilation_error Demo.tool Demo.interp
              Demo.t0 true Demo.tc_a Demo.w_nolib
              (<[ll_path_of Demo.t0 Demo.tc_a := File "ir:main"]> (fs Demo.w_nolib))
              (<[ll_path_of Demo.t0 Demo.tc_a := File "ir:main"]> (fs Demo.w_nolib)))
    as (w' & Hgen & Hstatus & _).
  - vm_compute. reflexivity.
  - exists (File "ir:main"). vm_compute. reflexivity.
  - vm_compute. reflexivity.
  - vm_compute. reflexivity.
  - exists w'. split; [exact Hgen | exact Hstatus].
Defined.

(** C3 at work: [tc_a] prints what is expected. *)
Lemma compare_stage_witness :
  case_status Demo.tool Demo.interp Demo.t0 true Demo.tc_a Demo.w1
    = Ok "Accecpted"
        (log_event (Call_match (out_path_of Demo.t0 Demo.tc_a)
                      (std_out_path Demo.tc_a)) Demo.w_ran).
Proof.
  destruct (compare_stage_verdict Demo.tool Demo.interp Demo.t0 true Demo.tc_a
              Demo.w1 Demo.w_linked Demo.w_ran (bc_path_of Demo.t0 Demo.tc_a))
    as (status & Hstatus & Hacc & _).
  - vm_compute. reflexivity.
  - vm_compute. reflexivity.
  - exists (File ("hi" +:+ nl +:+ "0" +:+ nl)). vm_compute. reflexivity.
  - assert (Hs : status = "Accecpted").
    { apply Hacc. exists ("hi" +:+ nl +:+ "0" +:+ nl).
      split; vm_compute; reflexivity. }
    rewrite Hs in Hstatus. exact Hstatus.
Defined.

(** C2 at work: output ["hi"], exit code 0, fresh capture file. *)
Lemma echo_exit_code_witness :
  exists w',
    run_ir Demo.interp (bc_path_of Demo.t0 Demo.tc_a) (out_path_of Demo.t0 Demo.tc_a)
      None true Demo.w_linked = Ok tt w' /\
    fs w' !! out_path_of Demo.t0 Demo.tc_a
      = Some (File ("hi" +:+ nl +:+ "0" +:+ nl)).
Proof.
  destruct (run_ir_echoes_exit_code Demo.interp
              (bc_path_of Demo.t0 Demo.tc_a) (out_path_of Demo.t0 Demo.tc_a)
              None None Demo.w_linked "hi" 0%Z)
    as (w' & Hrun & _ & Hhi & _).
  - vm_compute. reflexivity.
  - reflexivity.
  - vm_compute. reflexivity.
  - exists w'. split; [exact Hrun |]. exact (Hhi eq_refl eq_refl).
Defined.

(** C8 at work: executing [tc_a] a second time into the same capture
    file keeps what the first execution wrote. *)
Lemma append_to_capture_witness :
  exists suffix,
    fs (world_of (run_ir Demo.interp (bc_path_of Demo.t0 Demo.tc_a)
                    (out_path_of Demo.t0 Demo.tc_a) None true Demo.w_ran))
      !! out_path_of Demo.t0 Demo.tc_a
    = Some (File (("hi" +:+ nl +:+ "0" +:+ nl) +:+ suffix)).
Proof.
  apply (run_ir_appends_to_capture Demo.interp
           (bc_path_of Demo.t0 Demo.tc_a) (out_path_of Demo.t0 Demo.tc_a)
           None true Demo.w_ran ("hi" +:+ nl +:+ "0" +:+ nl)).
  vm_compute. reflexivity.
Defined.

(** C9 at work: an input path is given. *)
Lemma wires_stdin_witness :
  exists w' echoes,
    run_ir Demo.interp (bc_path_of Demo.t0 Demo.tc_a) (out_path_of Demo.t0 Demo.tc_a)
      (Some "t/bb.in") true Demo.w_linked = Ok tt w' /\
    trace w' =
      (trace Demo.w_linked ++
       [Call_run_ir (bc_path_of Demo.t0 Demo.tc_a) (out_path_of Demo.t0 Demo.tc_a)
          (Some "t/bb.in") true;
        Spawn (lli_argv (bc_path_of Demo.t0 Demo.tc_a)) (StdinFile "t/bb.in")
          (OutFile (out_path_of Demo.t0 Demo.tc_a)) OutDevNull] ++ echoes)%list.
Proof.
  destruct (run_ir_wires_stdin Demo.interp
              (bc_path_of Demo.t0 Demo.tc_a) (out_path_of Demo.t0 Demo.tc_a)
              (Some "t/bb.in") (Some "in") true Demo.w_linked "in" 0%Z)
    as (w' & echoes & Hrun & Htrace & _).
  - vm_compute. reflexivity.
  - exists "in". split; [vm_compute; reflexivity | reflexivity].
  - vm_compute. reflexivity.
  - exists w', echoes. split; [exact Hrun | exact Htrace].
Defined.

(** C5 (amended) at work, on the first case of the batch. *)
Lemma log_line_format_witness :
  exists k status,
    log_line Demo.t0 Demo.tc_a "Compilation Error"
      = sy_path Demo.tc_a +:+ spaces k +:+ " " +:+ tab +:+ status +:+ nl /\
    String.length (sy_path Demo.tc_a) + k = max_path_width Demo.t0.
Proof.
  destruct (log_line_format Demo.tool Demo.interp
              "Cbias.jar" [Demo.tc_a; Demo.tc_b; Demo.tc_c] "java" "out"
              Demo.now0 Demo.w0 Demo.w1 Demo.t0 true Demo.tc_a Demo.w_nolib
              (world_of (case_line Demo.tool Demo.interp Demo.t0 true
                           Demo.tc_a Demo.w_nolib))
              (log_line Demo.t0 Demo.tc_a "Compilation Error"))
    as (k & status & Hline & Hwidth & _).
  - vm_compute. reflexivity.
  - apply list_elem_of_here.
  - vm_compute. reflexivity.
  - exists k, status. split; [exact Hline | exact Hwidth].
Defined.

(** C5 as worded fails: [tc_b] has the longest path of the batch, so no
    padding applies to it, and still its line is not the path, a tab, the
    label and a newline: a space stands between the path and the tab. *)
Lemma log_line_is_not_path_tab_label :
  exists w',
    case_line Demo.tool Demo.interp Demo.t0 true Demo.tc_b Demo.w1
      = Ok ("t/bb.sy" +:+ " " +:+ tab +:+ "Compilation Error" +:+ nl) w' /\
    forall a b status,
      a + String.length (sy_path Demo.tc_b) + b = max_path_width Demo.t0 ->
      "t/bb.sy" +:+ " " +:+ tab +:+ "Compilation Error" +:+ nl
        <> spec_log_line a b (sy_path Demo.tc_b) status.
Proof.
  eexists. split; [vm_compute; reflexivity |].
  intros a b status Hw. simpl in Hw.
  assert (a = 0) as -> by lia. assert (b = 0) as -> by lia.
  intros H. vm_compute in H. discriminate H.
Qed.

(** C7 (amended) at work, on two times within one second. *)
Lemma run_dir_name_witness :
  run_dir_name Demo.now0 = run_dir_name Demo.now0' <->
  month Demo.now0 = month Demo.now0' /\ day Demo.now0 = day Demo.now0' /\
  hour Demo.now0 = hour Demo.now0' /\ minute Demo.now0 = minute Demo.now0' /\
  second Demo.now0 = second Demo.now0'.
Proof.
  apply (run_dir_name_same_iff_same_second Demo.now0 Demo.now0').
  - unfold valid_datetime, Demo.now0. cbn -[Nat.mul]. lia.
  - unfold valid_datetime, Demo.now0'. cbn -[Nat.mul]. lia.
Defined.

(** C7 as worded fails: two distinct construction times within one
    second give the same run-directory name; with the same [gen_dir] the
    second constructor finds the directory and raises. *)
Lemma same_second_same_run_dir :
  valid_datetime Demo.now0 /\ valid_datetime Demo.now0' /\
  Demo.now0 <> Demo.now0' /\
  run_dir_name Demo.now0 = run_dir_name Demo.now0' /\
  exists w2,
    init "Cbias.jar" [Demo.tc_a; Demo.tc_b; Demo.tc_c] "java" "out"
      Demo.now0' Demo.w1 = Raise FileExistsError w2.
Proof.
  split; [unfold valid_datetime, Demo.now0; cbn -[Nat.mul]; lia |].
  split; [unfold valid_datetime, Demo.now0'; cbn -[Nat.mul]; lia |].
  split; [discriminate |].
  split; [reflexivity |].
  eexists. vm_compute. reflexivity.
Qed.

(** * Further properties of the tester *)

Section More.

Variable tool : list string -> gmap string node -> option (gmap string node).
Variable interp :
  list string -> option string -> gmap string node -> option (string * Z).

(** ** [gen_ir] *)

(** X1.  [gen_ir] returns a path exactly when the compiler and the linker
    are both launched and each leaves its target on disk; the path is then
    [ir_dir/bc_name], and the trace gained the entry and the two calls. *)
Theorem gen_ir_returns_path_iff (t : tester) (tc : TestCase) (w w' : world)
    (bc : string) :
  gen_ir tool t tc w = Ok (Some bc) w' <->
  exists f1 f2,
    tool (split (cmd_compile t tc (ll_path_of t tc))) (fs w) = Some f1 /\
    is_Some (f1 !! ll_path_of t tc) /\
    tool (split (cmd_link (ll_path_of t tc) (bc_path_of t tc))) f1 = Some f2 /\
    is_Some (f2 !! bc_path_of t tc) /\
    bc = bc_path_of t tc /\
    w' = {| fs := f2;
            trace := trace w ++ [Call_gen_ir tc; compile_spawn t tc; link_spawn t tc];
            console := console w |}.
Proof.
  split.
  - unfold gen_ir, run_quiet, path_exists. run_monad.
    destruct (tool _ (fs w)) as [f1|] eqn:E1; simpl; [| done].
    case_bool_decide as Hll; simpl; [| done].
    destruct (tool _ f1) as [f2|] eqn:E2; simpl; [| done].
    case_bool_decide as Hbc; simpl; [| done].
    intros Heq. injection Heq as <- <-.
    exists f1, f2. repeat (split; [done |]). world_eq.
  - intros (f1 & f2 & H1 & Hll & H2 & Hbc & -> & ->).
    by apply gen_ir_linked with f1.
Qed.

(** X2.  A compiler that cannot be launched is not a compilation error:
    [gen_ir] raises [FileNotFoundError], the case gets no status and no
    log line, and the file system is left as it was. *)
Theorem gen_ir_launch_failure (t : tester) (echo_ret : bool) (tc : TestCase)
    (w : world) :
  tool (split (cmd_compile t tc (ll_path_of t tc))) (fs w) = None ->
  exists w',
    gen_ir tool t tc w = Raise FileNotFoundError w' /\
    case_line tool interp t echo_ret tc w = Raise FileNotFoundError w' /\
    fs w' = fs w /\
    trace w' = (trace w ++ [Call_gen_ir tc; compile_spawn t tc])%list.
Proof.
  intros Htool.
  assert (Hgen : gen_ir tool t tc w = Raise FileNotFoundError
            (log_event (compile_spawn t tc) (log_event (Call_gen_ir tc) w))).
  { unfold gen_ir, run_quiet. run_monad. by rewrite Htool. }
  eexists. split; [exact Hgen |]. split; [| split].
  - unfold case_line, case_status, bind. by rewrite Hgen.
  - reflexivity.
  - world_eq.
Qed.

(** ** [run_ir] *)

(** X3.  With [echo_ret] off the capture file gains the interpreter's
    output and nothing else, and the interpreter is the only process the
    stage starts. *)
Theorem run_ir_without_echo (bc_path out_path : string)
    (inp input : option string) (w : world) (output : string) (code : Z) :
  write_error (fs w) out_path = None ->
  reads_input (touch out_path (fs w)) inp input ->
  interp (lli_argv bc_path) input (touch out_path (fs w)) = Some (output, code) ->
  exists w',
    run_ir interp bc_path out_path inp false w = Ok tt w' /\
    fs w' !! out_path = Some (File (content_at (fs w) out_path +:+ output)) /\
    trace w' =
      (trace w ++
       [Call_run_ir bc_path out_path inp false;
        Spawn (lli_argv bc_path) (stdin_of inp) (OutFile out_path) OutDevNull])%list.
Proof.
  intros Hw Hin Hrun.
  pose proof (run_ir_ok interp bc_path out_path inp input false w output code
                Hw Hin Hrun) as Hok.
  eexists. split; [exact Hok |]. split.
  - simpl. rewrite lookup_insert_eq. by rewrite str_app_nil_r.
  - reflexivity.
Qed.


End More.

(** X2 at work: no Java launcher. *)
Lemma gen_ir_launch_failure_witness :
  exists w',
    gen_ir Demo.tool Demo.t0 Demo.tc_a Demo.w_nojava = Raise FileNotFoundError w' /\
    fs w' = fs Demo.w_nojava.
Proof.
  destruct (gen_ir_launch_failure Demo.tool Demo.interp Demo.t0 true Demo.tc_a
              Demo.w_nojava) as (w' & Hgen & _ & Hfs & _).
  - vm_compute. reflexivity.
  - exists w'. split; [exact Hgen | exact Hfs].
Defined.

(** X3 at work: case [tc_a] executed without the echo. *)
Lemma run_ir_without_echo_witness :
  exists w',
    run_ir Demo.interp (bc_path_of Demo.t0 Demo.tc_a) (out_path_of Demo.t0 Demo.tc_a)
      None false Demo.w_linked = Ok tt w' /\
    fs w' !! out_path_of Demo.t0 Demo.tc_a = Some (File "hi").
Proof.
  destruct (run_ir_without_echo Demo.interp
              (bc_path_of Demo.t0 Demo.tc_a) (out_path_of Demo.t0 Demo.tc_a)
              None None Demo.w_linked "hi" 0%Z)
    as (w' & Hrun & Hout & _).
  - vm_compute. reflexivity.
  - reflexivity.
  - vm_compute. reflexivity.
  - exists w'. split; [exact Hrun | exact Hout].
Defined.


(** ** What the stages leave alone *)

Lemma keeps_bind {A B} (R : world -> world -> Prop) (m : M A) (k : A -> M B) :
  (forall w1 w2 w3, R w1 w2 -> R w2 w3 -> R w1 w3) ->
  keeps R m -> (forall a, keeps R (k a)) -> keeps R (bind m k).
Proof.
  intros Htrans Hm Hk w. unfold bind. specialize (Hm w).
  destruct (m w) as [a w'|e w']; simpl in Hm; [| done].
  eapply Htrans; [exact Hm | apply Hk].
Qed.

Lemma same_console_trans (w1 w2 w3 : world) :
  same_console w1 w2 -> same_console w2 w3 -> same_console w1 w3.
Proof. unfold same_console. congruence. Qed.

Lemma same_at_trans (q : string) (w1 w2 w3 : world) :
  same_at q w1 w2 -> same_at q w2 w3 -> same_at q w1 w3.
Proof. unfold same_at. congruence. Qed.

Ltac keeps_prim :=
  let w := fresh "w" in
  intros w; unfold same_console, same_at; run_monad;
  repeat case_match; simplify_eq; simpl; try done.

Lemma append_bytes_other (p q b : string) (f : gmap string node) :
  p <> q -> append_bytes p b f !! q = f !! q.
Proof.
  intros Hne. unfold append_bytes.
  destruct (f !! p) as [[c|]|]; [| done | done]. by rewrite lookup_insert_ne.
Qed.

Section Frames.

Variable tool : list string -> gmap string node -> option (gmap string node).
Variable interp :
  list string -> option string -> gmap string node -> option (string * Z).

Lemma gen_ir_same_console (t : tester) (tc : TestCase) :
  keeps same_console (gen_ir tool t tc).
Proof. unfold gen_ir, run_quiet, path_exists. keeps_prim. Qed.

Lemma run_ir_same_console (bc_path out_path : string) (inp : option string)
    (echo_ret : bool) :
  keeps same_console (run_ir interp bc_path out_path inp echo_ret).
Proof.
  unfold run_ir, open_append, open_read, run_capture, getsize, run_echo.
  keeps_prim.
Qed.

Lemma match_files_same_world (p q : string) (w : world) :
  fs (world_of (match_files p q w)) = fs w /\
  console (world_of (match_files p q w)) = console w.
Proof.
  unfold match_files, filecmp_cmp. run_monad. repeat case_match; done.
Qed.

Lemma case_line_same_console (t : tester) (echo_ret : bool) (tc : TestCase) :
  keeps same_console (case_line tool interp t echo_ret tc).
Proof.
  unfold case_line, case_status.
  apply keeps_bind; [apply same_console_trans | | intros; by intros w].
  apply keeps_bind; [apply same_console_trans | apply gen_ir_same_console |].
  intros [bc|]; [| by intros w].
  apply keeps_bind; [apply same_console_trans | apply run_ir_same_console |].
  intros _.
  apply keeps_bind; [apply same_console_trans | | intros; by intros w].
  intros w. apply match_files_same_world.
Qed.

Lemma run_ir_same_at (q bc_path out_path : string) (inp : option string)
    (echo_ret : bool) :
  out_path <> q ->
  keeps (same_at q) (run_ir interp bc_path out_path inp echo_ret).
Proof.
  intros Hne. unfold run_ir.
  apply keeps_bind; [apply same_at_trans | by intros w | intros _].
  apply keeps_bind; [apply same_at_trans | | intros _].
  { intros w. unfold open_append, same_at. run_monad.
    repeat case_match; simpl; try done. by rewrite lookup_insert_ne. }
  assert (Hcap : forall argv sin input,
             keeps (same_at q) (run_capture interp argv sin input out_path)).
  { intros argv sin input w. unfold run_capture, same_at. run_monad.
    repeat case_match; simpl; try done. by apply append_bytes_other. }
  assert (Hecho : forall args, keeps (same_at q) (run_echo args out_path)).
  { intros args w. unfold run_echo, same_at. run_monad.
    by apply append_bytes_other. }
  apply keeps_bind; [apply same_at_trans | |].
  { destruct inp as [ip|]; [| apply Hcap].
    apply keeps_bind; [apply same_at_trans | | intros c; apply Hcap].
    unfold open_read. keeps_prim. }
  intros code. destruct echo_ret; [| by intros w].
  apply keeps_bind; [apply same_at_trans | unfold getsize; keeps_prim |].
  intros size.
  apply keeps_bind; [apply same_at_trans | | intros _; apply Hecho].
  destruct (0 <? size)%nat; [apply Hecho | by intros w].
Qed.

(** X5.  [run_ir] changes no path but the capture file, and prints
    nothing, whether it returns or raises. *)
Theorem run_ir_touches_only_capture (bc_path out_path : string)
    (inp : option string) (echo_ret : bool) (w : world) (q : string) :
  q <> out_path ->
  fs (world_of (run_ir interp bc_path out_path inp echo_ret w)) !! q = fs w !! q /\
  console (world_of (run_ir interp bc_path out_path inp echo_ret w)) = console w.
Proof.
  intros Hne. split.
  - by apply (run_ir_same_at q bc_path out_path inp echo_ret).
  - apply (run_ir_same_console bc_path out_path inp echo_ret).
Qed.

Lemma run_loop_console (t : tester) (echo_ret terminal_log : bool)
    (tcs : list TestCase) (buf : string) (w : world) :
  exists added,
    (run_loop tool interp t echo_ret terminal_log tcs buf w).2 = buf +:+ added /\
    console (world_of (run_loop tool interp t echo_ret terminal_log tcs buf w).1)
      = console w +:+ (if terminal_log then added else "").
Proof.
  revert buf w. induction tcs as [|tc rest IH]; intros buf w; simpl.
  - exists "". destruct terminal_log; by rewrite !str_app_nil_r.
  - pose proof (case_line_same_console t echo_ret tc w) as Hc.
    unfold same_console in Hc.
    destruct (case_line tool interp t echo_ret tc w) as [log w1|e w1];
      simpl in Hc.
    + destruct (IH (buf +:+ log) (if terminal_log then print log w1 else w1))
        as (added & Hbuf & Hcon).
      exists (log +:+ added). split.
      * by rewrite Hbuf, str_app_assoc.
      * rewrite Hcon. destruct terminal_log; simpl.
        -- by rewrite Hc, str_app_assoc.
        -- by rewrite Hc.
    + exists "". simpl. rewrite Hc. destruct terminal_log; by rewrite !str_app_nil_r.
Qed.

(** X6.  Once the result log can be opened, the console shows exactly what
    ends up in the log when [terminal_log] is on, and nothing when it is
    off, also when a stage raises in the middle of the batch. *)
Theorem run_console_mirrors_log (t : tester) (echo_ret terminal_log : bool)
    (w : world) :
  write_error (fs w) (res_path t) = None ->
  exists log,
    fs (world_of (run tool interp t echo_ret terminal_log w)) !! res_path t
      = Some (File log) /\
    console (world_of (run tool interp t echo_ret terminal_log w))
      = console w +:+ (if terminal_log then log else "").
Proof.
  intros Hw. unfold run, open_truncate. run_monad. rewrite Hw. simpl.
  set (w1 := set_fs _ w).
  destruct (run_loop_console t echo_ret terminal_log (testcases t) "" w1)
    as (added & Hbuf & Hcon).
  destruct (run_loop _ _ _ _ _ _ _ _) as [[[] w2|e w2] buf]; simpl in *;
    subst buf; exists added; by rewrite lookup_insert_eq.
Qed.

End Frames.

(** X5 at work: executing [tc_a] leaves its expected answer alone. *)
Lemma run_ir_touches_only_capture_witness :
  fs (world_of (run_ir Demo.interp (bc_path_of Demo.t0 Demo.tc_a)
                  (out_path_of Demo.t0 Demo.tc_a) None true Demo.w_linked))
    !! "t/a.out" = fs Demo.w_linked !! "t/a.out".
Proof.
  apply (run_ir_touches_only_capture Demo.interp
           (bc_path_of Demo.t0 Demo.tc_a) (out_path_of Demo.t0 Demo.tc_a)
           None true Demo.w_linked "t/a.out").
  vm_compute. discriminate.
Defined.

(** X6 at work, on the batch of three cases. *)
Lemma run_console_mirrors_log_witness :
  exists log,
    fs (world_of (run Demo.tool Demo.interp Demo.t0 true true Demo.w1))
      !! res_path Demo.t0 = Some (File log) /\
    console (world_of (run Demo.tool Demo.interp Demo.t0 true true Demo.w1))
      = console Demo.w1 +:+ log.
Proof.
  apply (run_console_mirrors_log Demo.tool Demo.interp Demo.t0 true true Demo.w1).
  vm_compute. reflexivity.
Defined.

(** ** [match] *)

(** X7.  [match] is symmetric: swapping the two paths gives the same
    answer. *)
Theorem match_files_symmetric (p q : string) (w w1 : world) (same : bool) :
  match_files p q w = Ok same w1 ->
  exists w2, match_files q p w = Ok same w2.
Proof.
  unfold match_files, filecmp_cmp. run_monad.
  destruct (fs w !! p) as [[c1|]|], (fs w !! q) as [[c2|]|]; simpl;
    try done; try (intros H; injection H as <- _; eauto).
  rewrite (Nat.eqb_sym (String.length c2)), (String.eqb_sym c2).
  destruct (String.length c1 =? String.length c2)%nat; simpl;
    intros H; injection H as <- _; eauto.
Qed.

(** X8.  A path compared with itself matches when it is a regular file;
    a directory does not match even itself. *)
Theorem match_files_same_path (p : string) (n : node) (w : world) :
  fs w !! p = Some n ->
  match_files p p w =
    Ok (match n with File _ => true | Dir => false end)
       (log_event (Call_match p p) w).
Proof.
  intros Hp. unfold match_files, filecmp_cmp. run_monad. rewrite Hp.
  destruct n as [c|]; [| done].
  by rewrite Nat.eqb_refl, String.eqb_refl.
Qed.


(** ** The constructor *)

Lemma mkdir_all_ok (ps : list string) (w w' : world) :
  mkdir_all ps w = Ok tt w' ->
  (forall p, p ∈ ps -> fs w' !! p = Some Dir) /\
  fs w ⊆ fs w' /\ trace w' = trace w /\ console w' = console w.
Proof.
  revert w. induction ps as [|p ps IH]; intros w; simpl.
  - unfold ret. intros H. injection H as <-.
    split; [| done]. intros p Hp. by apply elem_of_nil in Hp.
  - unfold bind, mkdir_missing at 1. run_monad.
    destruct (fs w !! p) as [[c|]|] eqn:Ep; simpl; [done | |].
    + intros H. destruct (IH _ H) as (Hd & Hsub & Ht & Hc).
      split; [| done]. intros x Hx. apply elem_of_cons in Hx as [->|Hx].
      * by eapply lookup_weaken.
      * by apply Hd.
    + intros H. destruct (IH _ H) as (Hd & Hsub & Ht & Hc). simpl in *.
      assert (Hins : fs w ⊆ <[p := Dir]> (fs w)) by by apply insert_subseteq.
      split; [| split; [by etrans |]; done].
      intros x Hx. apply elem_of_cons in Hx as [->|Hx].
      * eapply lookup_weaken; [| exact Hsub]. apply lookup_insert_eq.
      * by apply Hd.
Qed.

Lemma mkdir_all_present (ps : list string) (w : world) :
  (forall p, p ∈ ps -> fs w !! p = Some Dir) -> mkdir_all ps w = Ok tt w.
Proof.
  induction ps as [|p ps IH]; intros Hd; simpl; [done |].
  unfold bind, mkdir_missing at 1. run_monad.
  rewrite (Hd p) by apply list_elem_of_here. simpl.
  apply IH. intros x Hx. apply Hd. by apply list_elem_of_further.
Qed.

Lemma mkdir_all_keeps (ps : list string) (w : world) :
  fs w ⊆ fs (world_of (mkdir_all ps w)).
Proof.
  revert w. induction ps as [|p ps IH]; intros w; simpl; [done |].
  unfold bind, mkdir_missing at 1. run_monad.
  destruct (fs w !! p) as [[c|]|] eqn:Ep; simpl; [done | apply IH |].
  etrans; [| apply IH]. simpl. by apply insert_subseteq.
Qed.

Lemma makedirs_ok (p : string) (w w' : world) :
  makedirs p w = Ok tt w' ->
  fs w !! p = None /\ fs w' !! p = Some Dir /\
  (forall a, a ∈ ancestors p -> fs w' !! a = Some Dir) /\
  fs w ⊆ fs w' /\ trace w' = trace w /\ console w' = console w.
Proof.
  unfold makedirs, bind.
  destruct (mkdir_all (ancestors p) w) as [[] w1|e w1] eqn:E; [| done].
  destruct (mkdir_all_ok _ _ _ E) as (Hd & Hsub & Ht & Hc).
  run_monad. destruct (fs w1 !! p) eqn:Ep; simpl; [done |].
  intros H. injection H as <-. simpl.
  assert (Hins : fs w1 ⊆ <[p := Dir]> (fs w1)) by by apply insert_subseteq.
  split; [| split; [apply lookup_insert_eq | split; [| split; [by etrans | done]]]].
  - destruct (fs w !! p) eqn:Ew; [| done].
    by rewrite (lookup_weaken _ _ _ _ Ew Hsub) in Ep.
  - intros a Ha. eapply lookup_weaken; [by apply Hd | done].
Qed.

(** X10.  When the constructor returns, the run directory did not exist
    before, it and its [ir] and [out] subdirectories are directories now,
    and nothing that was on disk has been changed or removed; nothing is
    started or printed. *)
Theorem init_creates_run_directories (cp : string) (tcs : list TestCase)
    (jp gd : string) (now : datetime) (w w1 : world) (t : tester) :
  init cp tcs jp gd now w = Ok t w1 ->
  fs w !! root_dir t = None /\
  fs w1 !! root_dir t = Some Dir /\
  fs w1 !! ir_dir t = Some Dir /\
  fs w1 !! out_dir t = Some Dir /\
  fs w ⊆ fs w1 /\ trace w1 = trace w /\ console w1 = console w.
Proof.
  unfold init. destruct (py_max _) as [m|]; [| done]. unfold bind.
  destruct (makedirs _ w) as [[] wa|] eqn:Ea; [| done].
  destruct (makedirs _ wa) as [[] wb|] eqn:Eb; [| done].
  destruct (makedirs _ wb) as [[] wc|] eqn:Ec; [| done].
  unfold ret. intros H. injection H as <- <-. simpl.
  destruct (makedirs_ok _ _ _ Ea) as (Ha0 & Ha1 & _ & Hsa & Hta & Hca).
  destruct (makedirs_ok _ _ _ Eb) as (_ & Hb1 & _ & Hsb & Htb & Hcb).
  destruct (makedirs_ok _ _ _ Ec) as (_ & Hc1 & _ & Hsc & Htc & Hcc).
  split; [done |]. split; [| split; [| split; [done |]]].
  - eapply lookup_weaken; [exact Ha1 | by etrans].
  - eapply lookup_weaken; [exact Hb1 | done].
  - split; [by repeat (etrans; [eassumption |]) |]. split; congruence.
Qed.

(** X11.  The constructor never takes over an existing path as its run
    directory: if [gen_dir/testgen-...] is already there it raises. *)
Theorem init_refuses_existing_run_directory (cp : string) (tcs : list TestCase)
    (jp gd : string) (now : datetime) (w : world) :
  is_Some (fs w !! path_join gd (run_dir_name now)) ->
  exists e w', init cp tcs jp gd now w = Raise e w'.
Proof.
  intros [n Hn]. unfold init. destruct (py_max _) as [m|]; [| by eexists _, _].
  assert (exists e w', makedirs (path_join gd (run_dir_name now)) w = Raise e w')
    as (e & w' & Hr).
  { unfold makedirs, bind.
    pose proof (mkdir_all_keeps (ancestors (path_join gd (run_dir_name now))) w)
      as Hsub.
    destruct (mkdir_all _ w) as [[] w1|e1 w1]; simpl in Hsub; [| by eexists _, _].
    run_monad. rewrite (lookup_weaken _ _ _ _ Hn Hsub). by eexists _, _. }
  exists e, w'. unfold bind. by rewrite Hr.
Qed.

(** X12.  After one constructor has returned, a second construction with
    the same [gen_dir] at a time that agrees with the first on month, day,
    hour, minute and second raises [FileExistsError] and changes
    nothing. *)
Theorem init_twice_same_second (cp cp' : string) (tcs tcs' : list TestCase)
    (jp jp' gd : string) (d1 d2 : datetime) (w w1 : world) (t : tester) :
  init cp tcs jp gd d1 w = Ok t w1 ->
  month d1 = month d2 -> day d1 = day d2 -> hour d1 = hour d2 ->
  minute d1 = minute d2 -> second d1 = second d2 ->
  tcs' <> [] ->
  init cp' tcs' jp' gd d2 w1 = Raise FileExistsError w1.
Proof.
  intros Hinit Em Ed EH EM ES Hne.
  assert (Hname : run_dir_name d2 = run_dir_name d1).
  { unfold run_dir_name, strftime_mdHMS. by rewrite Em, Ed, EH, EM, ES. }
  revert Hinit. unfold init. rewrite Hname.
  destruct (py_max (map _ tcs)) as [m|]; [| done].
  destruct tcs' as [|tc' tcs']; [done |].
  change (py_max (map _ (tc' :: tcs')))
    with (Some (foldr Nat.max (String.length (sy_path tc'))
                  (map (fun tc0 => String.length (sy_path tc0)) tcs'))).
  cbv beta iota zeta. unfold bind.
  set (root := path_join gd (run_dir_name d1)).
  destruct (makedirs root w) as [[] wa|] eqn:Ea; [| done].
  destruct (makedirs _ wa) as [[] wb|] eqn:Eb; [| done].
  destruct (makedirs _ wb) as [[] wc|] eqn:Ec; [| done].
  unfold ret. intros H. injection H as _ <-.
  destruct (makedirs_ok _ _ _ Ea) as (_ & Ha1 & Haa & _).
  destruct (makedirs_ok _ _ _ Eb) as (_ & _ & _ & Hsb & _).
  destruct (makedirs_ok _ _ _ Ec) as (_ & _ & _ & Hsc & _).
  assert (Hsub : fs wa ⊆ fs wc) by by etrans.
  assert (Hroot : makedirs root wc = Raise FileExistsError wc).
  { unfold makedirs, bind. rewrite mkdir_all_present.
    - run_monad. by rewrite (lookup_weaken _ _ _ _ Ha1 Hsub).
    - intros a Ha. eapply lookup_weaken; [by apply Haa | done]. }
  by rewrite Hroot.
Qed.

(** X7 at work. *)
Lemma match_files_symmetric_witness :
  exists w2, match_files "t/c.out" "t/a.out" Demo.w1 = Ok false w2.
Proof.
  apply (match_files_symmetric "t/a.out" "t/c.out" Demo.w1
           (log_event (Call_match "t/a.out" "t/c.out") Demo.w1) false).
  vm_compute. reflexivity.
Defined.

(** X8 at work, on a regular file. *)
Lemma match_files_same_path_witness :
  match_files "t/a.out" "t/a.out" Demo.w1 =
    Ok true (log_event (Call_match "t/a.out" "t/a.out") Demo.w1).
Proof.
  apply (match_files_same_path "t/a.out" (File ("hi" +:+ nl +:+ "0" +:+ nl)) Demo.w1).
  vm_compute. reflexivity.
Defined.

(** X10 at work. *)
Lemma init_creates_run_directories_witness :
  fs Demo.w0 !! root_dir Demo.t0 = None /\
  fs Demo.w1 !! root_dir Demo.t0 = Some Dir.
Proof.
  destruct (init_creates_run_directories "Cbias.jar"
              [Demo.tc_a; Demo.tc_b; Demo.tc_c] "java" "out" Demo.now0
              Demo.w0 Demo.w1 Demo.t0) as (H0 & H1 & _).
  - vm_compute. reflexivity.
  - split; [exact H0 | exact H1].
Defined.

(** X11 at work: the run directory of [t0] is there already. *)
Lemma init_refuses_existing_run_directory_witness :
  exists e w',
    init "Cbias.jar" [Demo.tc_a] "java" "out" Demo.now0 Demo.w1 = Raise e w'.
Proof.
  apply (init_refuses_existing_run_directory "Cbias.jar" [Demo.tc_a] "java" "out"
           Demo.now0 Demo.w1).
  exists Dir. vm_compute. reflexivity.
Defined.

(** X12 at work: [now0'] is within the second of [now0]. *)
Lemma init_twice_same_second_witness :
  init "Other.jar" [Demo.tc_c] "java" "out" Demo.now0' Demo.w1
    = Raise FileExistsError Demo.w1.
Proof.
  apply (init_twice_same_second "Cbias.jar" "Other.jar"
           [Demo.tc_a; Demo.tc_b; Demo.tc_c] [Demo.tc_c] "java" "java" "out"
           Demo.now0 Demo.now0' Demo.w0 Demo.w1 Demo.t0);
    [vm_compute; reflexivity | reflexivity .. | discriminate].
Defined.

(** ** Command lines *)

Lemma split_from_word (s cur rest : string) :
  no_space s = true -> split_from cur (s +:+ rest) = split_from (cur +:+ s) rest.
Proof.
  revert cur. induction s as [|c s IH]; intros cur Hs.
  - by rewrite str_app_nil_l, str_app_nil_r.
  - simpl in Hs. apply andb_true_iff in Hs as [Hc Hs].
    apply negb_true_iff in Hc.
    rewrite str_app_cons. simpl. rewrite Hc, IH by done.
    by rewrite str_app_assoc.
Qed.

Lemma eqb_empty_false (s : string) : s <> "" -> String.eqb s "" = false.
Proof. intros H. by apply String.eqb_neq. Qed.

Lemma split_from_end (cur : string) : cur <> "" -> split_from cur "" = [cur].
Proof. intros H. simpl. by rewrite eqb_empty_false. Qed.

Lemma split_from_blank (cur rest : string) :
  cur <> "" -> split_from cur (" " +:+ rest) = cur :: split_from "" rest.
Proof.
  intros H. change (" " +:+ rest) with (String " " rest).
  change (split_from cur (String " " rest))
    with (if String.eqb cur "" then split_from "" rest
          else cur :: split_from "" rest).
  by rewrite eqb_empty_false.
Qed.

Lemma split_concat_words (ws : list string) :
  Forall is_word ws -> split (String.concat " " ws) = ws.
Proof.
  unfold split. induction 1 as [|x ws [Hne Hsp] Hws IH]; [done |].
  destruct ws as [|y ws].
  - change (String.concat " " [x]) with x.
    rewrite <- (str_app_nil_r x), split_from_word by done.
    rewrite str_app_nil_l, str_app_nil_r. by apply split_from_end.
  - change (String.concat " " (x :: y :: ws))
      with (x +:+ " " +:+ String.concat " " (y :: ws)).
    rewrite split_from_word by done. rewrite str_app_nil_l.
    rewrite split_from_blank by done. by rewrite IH.
Qed.

Ltac words_ok :=
  repeat (apply Forall_cons_2;
          [first [assumption | (split; [discriminate | reflexivity])] |]);
  apply Forall_nil_2.

(** X13.  When none of the paths involved is empty or contains
    whitespace, the three command strings split into exactly the intended
    argument vectors. *)
Theorem commands_split_into_words (t : tester) (tc : TestCase) :
  is_word (java_path t) -> is_word (compiler_path t) -> is_word (sy_path tc) ->
  is_word (ll_path_of t tc) -> is_word (bc_path_of t tc) ->
  split (cmd_compile t tc (ll_path_of t tc))
    = [java_path t; "-jar"; compiler_path t; "-s"; sy_path tc;
       "-emit-llvm"; ll_path_of t tc] /\
  split (cmd_link (ll_path_of t tc) (bc_path_of t tc))
    = ["llvm-link"; ll_path_of t tc; "sylib.ll"; "-o"; bc_path_of t tc] /\
  lli_argv (bc_path_of t tc) = ["lli"; bc_path_of t tc].
Proof.
  intros Hj Hc Hs Hl Hb.
  split; [| split].
  - change (cmd_compile t tc (ll_path_of t tc))
      with (String.concat " " [java_path t; "-jar"; compiler_path t; "-s";
                               sy_path tc; "-emit-llvm"; ll_path_of t tc]).
    apply split_concat_words. words_ok.
  - change (cmd_link (ll_path_of t tc) (bc_path_of t tc))
      with (String.concat " " ["llvm-link"; ll_path_of t tc; "sylib.ll"; "-o";
                               bc_path_of t tc]).
    apply split_concat_words. words_ok.
  - unfold lli_argv.
    change ("lli " +:+ bc_path_of t tc)
      with (String.concat " " ["lli"; bc_path_of t tc]).
    apply split_concat_words. words_ok.
Qed.

(** X14.  A blank inside the source path is not quoted: the compiler is
    handed the two halves as separate arguments, so [-s] is followed by
    the first half only. *)
Theorem source_path_with_blank_is_split (t : tester) (tc : TestCase)
    (a b : string) :
  sy_path tc = a +:+ " " +:+ b ->
  is_word (java_path t) -> is_word (compiler_path t) ->
  is_word a -> is_word b -> is_word (ll_path_of t tc) ->
  split (cmd_compile t tc (ll_path_of t tc))
    = [java_path t; "-jar"; compiler_path t; "-s"; a; b;
       "-emit-llvm"; ll_path_of t tc].
Proof.
  intros Hsy Hj Hc Ha Hb Hl.
  assert (Hcmd : cmd_compile t tc (ll_path_of t tc)
            = String.concat " " [java_path t; "-jar"; compiler_path t; "-s";
                                 a; b; "-emit-llvm"; ll_path_of t tc]).
  { unfold cmd_compile. rewrite Hsy. simpl String.concat.
    by rewrite !str_app_assoc. }
  rewrite Hcmd. apply split_concat_words. words_ok.
Qed.

(** X13 at work. *)
Lemma commands_split_into_words_witness :
  lli_argv (bc_path_of Demo.t0 Demo.tc_a) = ["lli"; bc_path_of Demo.t0 Demo.tc_a].
Proof.
  apply (commands_split_into_words Demo.t0 Demo.tc_a);
    (split; [discriminate | reflexivity]).
Defined.

(** X14 at work. *)
Lemma source_path_with_blank_is_split_witness :
  split (cmd_compile Demo.t0 Demo.tc_blank (ll_path_of Demo.t0 Demo.tc_blank))
    = ["java"; "-jar"; "Cbias.jar"; "-s"; "my"; "tests/d.sy"; "-emit-llvm";
       ll_path_of Demo.t0 Demo.tc_blank].
Proof.
  apply (source_path_with_blank_is_split Demo.t0 Demo.tc_blank "my" "tests/d.sy");
    [reflexivity | (split; [discriminate | reflexivity]) ..].
Defined.

(** ** A whole case *)

Section WholeCase.

Variable tool : list string -> gmap string node -> option (gmap string node).
Variable interp :
  list string -> option string -> gmap string node -> option (string * Z).

(** X15.  A case that compiles, links and runs goes through the stages
    once each and in this order: compiler, linker, interpreter, the echo
    calls, comparison; it ends with one of the two comparison labels. *)
Theorem case_runs_stages_in_order (t : tester) (echo_ret : bool) (tc : TestCase)
    (w : world) (f1 f2 : gmap string node) (input : option string)
    (output : string) (code : Z) :
  tool (split (cmd_compile t tc (ll_path_of t tc))) (fs w) = Some f1 ->
  is_Some (f1 !! ll_path_of t tc) ->
  tool (split (cmd_link (ll_path_of t tc) (bc_path_of t tc))) f1 = Some f2 ->
  is_Some (f2 !! bc_path_of t tc) ->
  write_error f2 (out_path_of t tc) = None ->
  reads_input (touch (out_path_of t tc) f2) (in_path tc) input ->
  interp (lli_argv (bc_path_of t tc)) input (touch (out_path_of t tc) f2)
    = Some (output, code) ->
  is_Some (f2 !! std_out_path tc) ->
  exists status w',
    case_status tool interp t echo_ret tc w = Ok status w' /\
    (status = "Accecpted" \/ status = "Wrong Answer") /\
    trace w' =
      (trace w ++
       [Call_gen_ir tc; compile_spawn t tc; link_spawn t tc;
        Call_run_ir (bc_path_of t tc) (out_path_of t tc) (in_path tc) echo_ret;
        Spawn (lli_argv (bc_path_of t tc)) (stdin_of (in_path tc))
          (OutFile (out_path_of t tc)) OutDevNull] ++
       echo_events echo_ret (content_at f2 (out_path_of t tc) +:+ output) code
         (out_path_of t tc) ++
       [Call_match (out_path_of t tc) (std_out_path tc)])%list.
Proof.
  intros Hc Hll Hl Hbc Hw Hin Hrun [n Hstd].
  pose proof (gen_ir_linked tool t tc w f1 f2 Hc Hll Hl Hbc) as Hgen.
  set (w1 := {| fs := f2;
                trace := trace w ++ [Call_gen_ir tc; compile_spawn t tc; link_spawn t tc];
                console := console w |}) in *.
  pose proof (run_ir_ok interp (bc_path_of t tc) (out_path_of t tc) (in_path tc)
                input echo_ret w1 output code Hw Hin Hrun) as Hir.
  simpl fs in Hir. simpl trace in Hir. simpl console in Hir.
  match type of Hir with _ = Ok tt ?x => set (w2 := x) in * end.
  set (w3 := log_event (Call_match (out_path_of t tc) (std_out_path tc)) w2).
  assert (exists n', fs w3 !! std_out_path tc = Some n') as [n' Hn'].
  { simpl. destruct (decide (out_path_of t tc = std_out_path tc)) as [<-|Hne].
    - rewrite lookup_insert_eq. eauto.
    - rewrite lookup_insert_ne by done. eauto. }
  destruct (filecmp_cmp_files (out_path_of t tc) (std_out_path tc) _ n' w3
              (lookup_insert_eq _ _ _) Hn') as (same & Hcmp & _).
  exists (if same then Accecpted else Wrong_Answer), w3. split; [| split].
  - unfold case_status. fold (out_path_of t tc).
    erewrite bind_ok; last exact Hgen. cbv beta iota.
    erewrite bind_ok; last exact Hir.
    unfold match_files at 1.
    erewrite bind_ok; last first.
    { erewrite bind_ok; [exact Hcmp | reflexivity]. }
    done.
  - destruct same; auto.
  - simpl. rewrite <- !(assoc_L (++)). simpl. reflexivity.
Qed.

(** What a returning [run_ir] needed: the capture file could be opened,
    the input read and the interpreter launched. *)
Lemma run_ir_ok_inv (bc_path out_path : string) (inp : option string)
    (echo_ret : bool) (w w' : world) :
  run_ir interp bc_path out_path inp echo_ret w = Ok tt w' ->
  write_error (fs w) out_path = None /\
  exists input output code,
    reads_input (touch out_path (fs w)) inp input /\
    interp (lli_argv bc_path) input (touch out_path (fs w)) = Some (output, code).
Proof.
  intros H. destruct (write_error (fs w) out_path) as [e|] eqn:Hw.
  - exfalso. revert H. unfold run_ir, open_append. run_monad. by rewrite Hw.
  - split; [done |]. revert H. unfold run_ir.
    rewrite (bind_ok _ _ w
               (log_event (Call_run_ir bc_path out_path inp echo_ret) w) tt)
      by reflexivity.
    erewrite bind_ok; last by (apply open_append_ok; simpl; exact Hw).
    simpl fs. unfold bind at 1. destruct inp as [ip|].
    + unfold bind at 1, open_read at 1. run_monad.
      destruct (touch out_path (fs w) !! ip) as [[c|]|] eqn:Eip; simpl;
        [| done | done].
      unfold run_capture at 1. run_monad. fold (lli_argv bc_path).
      destruct (interp _ _ _) as [[o cd]|] eqn:Ei; simpl; [| done].
      intros _. exists (Some c), o, cd. split; [| done]. exists c. done.
    + unfold run_capture at 1. run_monad. fold (lli_argv bc_path).
      destruct (interp _ _ _) as [[o cd]|] eqn:Ei; simpl; [| done].
      intros _. exists None, o, cd. done.
Qed.

(** X16.  With exit-code echoing on, a case can only be accepted if its
    expected-answer file ends with a newline: what is captured always ends
    with the exit code and a newline. *)
Theorem accepted_answer_ends_with_newline (t : tester) (tc : TestCase)
    (w w' : world) :
  case_status tool interp t true tc w = Ok "Accecpted" w' ->
  exists body code,
    fs w' !! std_out_path tc = Some (File (body +:+ str_of_int code +:+ nl)).
Proof.
  unfold case_status. fold (out_path_of t tc). unfold bind at 1.
  destruct (gen_ir tool t tc w) as [[bc|] w1|]; [| done | done].
  unfold bind at 1.
  destruct (run_ir interp bc (out_path_of t tc) (in_path tc) true w1)
    as [[] w2|] eqn:Hir; [| done].
  destruct (run_ir_ok_inv _ _ _ _ _ _ Hir)
    as (Hw & input & output & code & Hin & Hrun).
  rewrite (run_ir_ok interp bc (out_path_of t tc) (in_path tc) input true w1
             output code Hw Hin Hrun) in Hir.
  injection Hir as <-.
  unfold bind, match_files, filecmp_cmp. run_monad. rewrite lookup_insert_eq.
  destruct (_ !! std_out_path tc) as [[c2|]|] eqn:Estd; simpl; try done.
  destruct (String.length _ =? String.length c2)%nat; simpl; [| done].
  destruct (String.eqb _ c2) eqn:Eeq; simpl; [| done].
  intros H. injection H as <-. simpl. rewrite Estd.
  apply String.eqb_eq in Eeq. subst c2. unfold echo_text.
  eexists _, code. by rewrite <- !str_app_assoc.
Qed.

End WholeCase.

(** X15 at work: case [tc_a]. *)
Lemma case_runs_stages_in_order_witness :
  exists status w',
    case_status Demo.tool Demo.interp Demo.t0 true Demo.tc_a Demo.w1
      = Ok status w' /\
    (status = "Accecpted" \/ status = "Wrong Answer").
Proof.
  destruct (case_runs_stages_in_order Demo.tool Demo.interp Demo.t0 true
              Demo.tc_a Demo.w1
              (<[ll_path_of Demo.t0 Demo.tc_a := File "ir:main"]> (fs Demo.w1))
              (fs Demo.w_linked) None "hi" 0%Z)
    as (status & w' & Hs & Hl & _).
  - vm_compute. reflexivity.
  - exists (File "ir:main"). vm_compute. reflexivity.
  - vm_compute. reflexivity.
  - exists (File "bc:ir:main"). vm_compute. reflexivity.
  - vm_compute. reflexivity.
  - reflexivity.
  - vm_compute. reflexivity.
  - exists (File ("hi" +:+ nl +:+ "0" +:+ nl)). vm_compute. reflexivity.
  - exists status, w'. split; [exact Hs | exact Hl].
Defined.

(** X16 at work: the expected answer of [tc_a] ends with a newline. *)
Lemma accepted_answer_ends_with_newline_witness :
  exists body code,
    fs (log_event (Call_match (out_path_of Demo.t0 Demo.tc_a)
                     (std_out_path Demo.tc_a)) Demo.w_ran)
      !! std_out_path Demo.tc_a
    = Some (File (body +:+ str_of_int code +:+ nl)).
Proof.
  apply (accepted_answer_ends_with_newline Demo.tool Demo.interp Demo.t0
           Demo.tc_a Demo.w1).
  vm_compute. reflexivity.
Defined.
